(** * Recipe deployment handler ([DeployRecipe]) of the connector resource
    provider: a shallow embedding of the recipe handler of package
    [handlers] (pkg/connectorrp/handlers) and the properties of its three
    functions.

    The Go functions talk to two collaborators, the OCI registry client
    (oras) and the ARM deployments client.  Their calls are the events of a
    small free monad [Prog]; an execution is the run of a program against an
    arbitrary, history-dependent [stub], and leaves the [trace] of the
    calls made with the replies received.  Go run-time panics (index out of
    range, failed type assertion, nil dereference) are the [Fault] outcome,
    distinct from a returned [error] value. *)

From Stdlib Require Import ZArith String Ascii List DecimalString.
From Stdlib Require DecimalZ DecimalFacts.
From stdpp Require Import base option list strings gmap.

Set Warnings "-register-all".
Open Scope string_scope.

(** ** Go run-time values *)

(** A run-time panic of the Go program. *)
Inductive panic : Type :=
| IndexOutOfRange (i len : nat)        (* index out of range [i] with length len *)
| InterfaceConversion (wanted : string) (* single-value type assertion failed *)
| NilDereference.                      (* invalid memory address or nil pointer dereference *)

(** What a collaborator hands back as a non-nil [error]: only its text is
    observable here ([err.Error()]). *)
Record cause : Type := Cause { text : string }.

(** A Go [error] value held by the handler: either the very value a
    collaborator returned, or a fresh value built here by [fmt.Errorf]
    (the format strings of the source use [%s], never [%w], so such a value
    carries the text only). *)
Inductive error : Type :=
| Foreign (c : cause)
| Errorf (msg : string).

Definition Error (e : error) : string :=
  match e with
  | Foreign c => text c
  | Errorf msg => msg
  end.

(** A Go slice value: [None] is the nil slice. *)
Definition slice (A : Type) : Type := option (list A).

Definition elems {A} (s : slice A) : list A := default [] s.

Definition append {A} (s : slice A) (x : A) : slice A := Some (elems s ++ [x])%list.

(** The dynamic values [encoding/json] stores in an [interface{}]:
    nil, bool, float64 (kept as its 64-bit pattern), string,
    [[]interface{}] and [map[string]interface{}]. *)
Inductive any : Type :=
| Nil
| Bool (b : bool)
| Float64 (bits : Z)
| Str (s : string)
| Slice (l : list any)
| Map (m : gmap string any).

(** [m[k]] on a Go map: the zero value (nil interface) when the key is absent. *)
Definition mapIndex (m : gmap string any) (k : string) : any := default Nil (m !! k).

(** The two-value ("comma ok") type assertions of the source. *)
Definition assertMap (v : any) : gmap string any * bool :=
  match v with
  | Map m => (m, true)
  | _ => (∅, false)
  end.

Definition assertString (v : any) : string * bool :=
  match v with
  | Str s => (s, true)
  | _ => ("", false)
  end.

Module strings.

(** [strings.Split]: [s] cut at every non-overlapping occurrence of [sep],
    scanning from the left.  [skip] counts the bytes of an occurrence
    already matched that are still to be passed over, [cur] is the piece
    being collected. *)
Fixpoint splitFrom (sep : string) (skip : nat) (cur s : string) : list string :=
  match s with
  | EmptyString => [cur]
  | String c rest =>
      match skip with
      | S n => splitFrom sep n cur rest
      | O =>
          if String.prefix sep s
          then cur :: splitFrom sep (String.length sep - 1) "" rest
          else splitFrom sep 0 (cur ++ String c "") rest
      end
  end.

(** With an empty separator Go cuts after every UTF-8 sequence; the handler
    only ever splits at [":"], and that case is kept at byte granularity. *)
Definition Split (s sep : string) : list string :=
  match sep with
  | EmptyString => (fun c => String c "") <$> list_ascii_of_string s
  | _ => splitFrom sep 0 "" s
  end.

End strings.

Module strconv.

(** [strconv.FormatInt(i, 10)]. *)
Definition FormatInt (i : Z) : string := NilZero.string_of_int (Z.to_int i).

End strconv.

(** ** The collaborators *)

(** Handles and records of the registry client.  A descriptor is
    [{mediaType, digest, size}]. *)
Record Repository : Type := RepositoryHandle { repositoryId : nat }.
Record ReadCloser : Type := ReadCloserHandle { streamId : nat }.
Record Descriptor : Type :=
  { MediaType : string; Digest : string; Size : Z }.

(** Records of the deployments client.  [ProvisioningState] and
    [DeploymentMode] are string types in the SDK. *)
Record Authorizer : Type := AuthorizerHandle { authorizerId : nat }.
Record ArmConfig : Type := { Auth : Authorizer }.
Record azureRecipeHandler : Type := { arm : option ArmConfig }.

Record DeploymentsClient : Type :=
  { SubscriptionID : string; ClientAuthorizer : Authorizer }.

Definition NewDeploymentsClient (subscriptionID : string) (auth : Authorizer)
  : DeploymentsClient :=
  {| SubscriptionID := subscriptionID; ClientAuthorizer := auth |}.

Record DeploymentProperties : Type :=
  { Template : gmap string any; Mode : string }.
Record Deployment : Type := { DeploymentProps : option DeploymentProperties }.

Definition DeploymentModeIncremental : string := "Incremental".
Definition ProvisioningStateSucceeded : string := "Succeeded".

Record ResourceReference : Type := { ID : option string }.
Record DeploymentPropertiesExtended : Type :=
  { ProvisioningState : string;
    OutputResources : option (list ResourceReference) }.
Record DeploymentExtended : Type :=
  { Properties : option DeploymentPropertiesExtended }.
Record Future : Type := FutureHandle { operationId : nat }.

(** Every call that leaves the handler, indexed by the type of its reply.
    A reply [(v, Some c)] is Go's [(v, err)] with [err != nil].
    [Unmarshal] replies with the contents of the target map after the call.
    The [context.Context] argument is not represented. *)
Inductive Event : Type -> Type :=
| NewRepository (reference : string) : Event (Repository * option cause)
| Resolve (repo : Repository) (reference : string) : Event (Descriptor * option cause)
| Fetch (repo : Repository) (target : Descriptor) : Event (ReadCloser * option cause)
| ReadAll (rc : ReadCloser) (desc : Descriptor) : Event (list Byte.byte * option cause)
| Close (rc : ReadCloser) : Event (option cause)
| BlobsResolve (repo : Repository) (reference : string) : Event (Descriptor * option cause)
| Unmarshal (data : list Byte.byte) : Event (gmap string any * option cause)
| UnixNano : Event Z
| CreateOrUpdate (client : DeploymentsClient) (resourceGroupName deploymentName : string)
    (parameters : Deployment) : Event (Future * option cause)
| WaitForCompletionRef (future : Future) (client : DeploymentsClient) : Event (option cause)
| Result (future : Future) (client : DeploymentsClient)
  : Event (DeploymentExtended * option cause).

(** ** Programs over the collaborators *)

Inductive Prog (A : Type) : Type :=
| Done (a : A)
| Fault (p : panic)
| Call {X : Type} (e : Event X) (k : X -> Prog A).

Arguments Done {A} a.
Arguments Fault {A} p.
Arguments Call {A X} e k.

Fixpoint bind {A B : Type} (p : Prog A) (f : A -> Prog B) : Prog B :=
  match p with
  | Done a => f a
  | Fault x => Fault x
  | Call e k => Call e (fun x => bind (k x) f)
  end.

#[global] Instance prog_ret : MRet Prog := @Done.
#[global] Instance prog_bind : MBind Prog := fun A B f p => bind p f.

Definition call {X : Type} (e : Event X) : Prog X := Call e Done.

(** [defer cleanup] around [body]: the cleanup runs when the body returns
    and also when it panics; its own result is dropped. *)
Fixpoint defer {A B : Type} (cleanup : Prog B) (body : Prog A) : Prog A :=
  match body with
  | Done a => bind cleanup (fun _ => Done a)
  | Fault x => bind cleanup (fun _ => Fault x)
  | Call e k => Call e (fun x => defer cleanup (k x))
  end.

(** [l[i]] on a slice. *)
Definition index {A : Type} (l : list A) (i : nat) : Prog A :=
  match l !! i with
  | Some x => Done x
  | None => Fault (IndexOutOfRange i (length l))
  end.

(** [*p] on a pointer. *)
Definition deref {A : Type} (p : option A) : Prog A :=
  match p with
  | Some x => Done x
  | None => Fault NilDereference
  end.

(** [v.([]interface{})], the single-value form: it panics on a mismatch. *)
Definition assertSlice (v : any) : Prog (list any) :=
  match v with
  | Slice l => Done l
  | _ => Fault (InterfaceConversion "[]interface {}")
  end.

(** ** Executions *)

Inductive outcome (A : Type) : Type :=
| Returned (a : A)
| Panicked (p : panic).

Arguments Returned {A} a.
Arguments Panicked {A} p.

Record entry : Type := Entry { reply_type : Type; made : Event reply_type; reply : reply_type }.

Arguments Entry {reply_type} made reply.

Definition trace : Type := list entry.

(** A collaborator stub: its reply may depend on everything that happened
    before, so two calls with equal arguments may be answered differently. *)
Definition stub : Type := forall X : Type, trace -> Event X -> X.

Fixpoint run {A : Type} (h : stub) (p : Prog A) (past : trace) : outcome A * trace :=
  match p with
  | Done a => (Returned a, past)
  | Fault x => (Panicked x, past)
  | Call e k => let x := h _ past e in run h (k x) (past ++ [Entry e x])%list
  end.

(** ** The handler *)

Definition deplmtPrefix : string := "recipe".

(** [getDigestFromManifest] gets the layers digest from the manifest. *)
Definition getDigestFromManifest (repo : Repository) (tag : string)
  : Prog (string * option error) :=
  '(descriptor, err) ← call (Resolve repo tag);
  if err is Some e then mret ("", Some (Foreign e)) else
  '(rc, err) ← call (Fetch repo descriptor);
  if err is Some e then mret ("", Some (Foreign e)) else
  defer (call (Close rc)) (
    '(manifestBlob, err) ← call (ReadAll rc descriptor);
    if err is Some e then mret ("", Some (Foreign e)) else
    '(manifest, err) ← call (Unmarshal manifestBlob);
    if err is Some e then mret ("", Some (Foreign e)) else
    layers ← assertSlice (mapIndex manifest "layers");
    first ← index layers 0;
    let '(layer, ok) := assertMap first in
    if negb ok then mret ("", Some (Errorf "failed to decode the layers from manifest")) else
    let '(layerDigest, ok) := assertString (mapIndex layer "digest") in
    if negb ok then mret ("", Some (Errorf "failed to decode the layers digest from manifest")) else
    mret (layerDigest, None)).

(** [getRecipeBytes] fetches the recipe ARM JSON using the layers digest. *)
Definition getRecipeBytes (repo : Repository) (layerDigest : string)
  : Prog (slice Byte.byte * option error) :=
  '(descriptor, err) ← call (BlobsResolve repo layerDigest);
  if err is Some e then mret (None, Some (Foreign e)) else
  '(rc, err) ← call (Fetch repo descriptor);
  if err is Some e then mret (None, Some (Foreign e)) else
  defer (call (Close rc)) (
    '(pulledBlob, err) ← call (ReadAll rc descriptor);
    if err is Some e then mret (None, Some (Foreign e)) else
    mret (Some pulledBlob, None)).

(** The loop of [DeployRecipe] over [*resp.Properties.OutputResources]:
    [result = append(result, *id.ID)]. *)
Fixpoint appendIDs (outputResources : list ResourceReference) (result : slice string)
  : Prog (slice string) :=
  match outputResources with
  | [] => mret result
  | id :: rest => s ← deref (ID id); appendIDs rest (append result s)
  end.

(** Line 52 of [DeployRecipe]:
    [registryRepo, tag := strings.Split(templatePath, ":")[0], strings.Split(templatePath, ":")[1]]. *)
Definition splitTemplatePath (templatePath : string) : Prog (string * string) :=
  registryRepo ← index (strings.Split templatePath ":") 0;
  tag ← index (strings.Split templatePath ":") 1;
  mret (registryRepo, tag).

(** [DeployRecipe] fetches the recipe ARM JSON template from the registry
    and deploys it. *)
Definition DeployRecipe (handler : azureRecipeHandler)
  (templatePath subscriptionID resourceGroupName : string)
  : Prog (slice string * option error) :=
  '(registryRepo, tag) ← splitTemplatePath templatePath;
  if String.eqb templatePath "" then
    mret (None, Some (Errorf "templatePath cannot be empty")) else
  '(repo, err) ← call (NewRepository registryRepo);
  if err is Some e then
    mret (None, Some (Errorf ("failed to create client to registry " ++ text e))) else
  '(digest, err) ← getDigestFromManifest repo tag;
  if err is Some e then
    mret (None, Some (Errorf ("failed to fetch recipe manifest from registry " ++ Error e))) else
  '(recipeBytes, err) ← getRecipeBytes repo digest;
  if err is Some e then
    mret (None, Some (Errorf ("failed to fetch recipe template from registry " ++ Error e))) else
  '(recipe, err) ← call (Unmarshal (elems recipeBytes));
  if err is Some e then mret (None, Some (Foreign e)) else
  armConfig ← deref (arm handler);
  let dClient := NewDeploymentsClient subscriptionID (Auth armConfig) in
  now ← call UnixNano;
  let deploymtName := deplmtPrefix ++ strconv.FormatInt now in
  '(dplResp, err) ← call (CreateOrUpdate dClient resourceGroupName deploymtName
      {| DeploymentProps :=
           Some {| Template := recipe; Mode := DeploymentModeIncremental |} |});
  if err is Some e then mret (None, Some (Foreign e)) else
  err ← call (WaitForCompletionRef dplResp dClient);
  if err is Some e then mret (None, Some (Foreign e)) else
  '(resp, err) ← call (Result dplResp dClient);
  if err is Some e then mret (None, Some (Foreign e)) else
  properties ← deref (Properties resp);
  if negb (String.eqb (ProvisioningState properties) ProvisioningStateSucceeded) then
    mret (None, Some (Errorf ("failed to deploy recipe - " ++ deploymtName))) else
  outputResources ← deref (OutputResources properties);
  result ← appendIDs outputResources None;
  mret (result, None).

(** ** Reading a trace *)

(** The error a collaborator reported in a reply.  The result of the
    deferred [rc.Close()] is dropped by the program and is not a failure of
    any stage. *)
Definition failure_of (en : entry) : option cause :=
  match made en in Event X return X -> option cause with
  | NewRepository _ => snd
  | Resolve _ _ => snd
  | Fetch _ _ => snd
  | ReadAll _ _ => snd
  | Close _ => fun _ => None
  | BlobsResolve _ _ => snd
  | Unmarshal _ => snd
  | UnixNano => fun _ => None
  | CreateOrUpdate _ _ _ _ => snd
  | WaitForCompletionRef _ _ => id
  | Result _ _ => snd
  end (reply en).

(** The stages of the pipeline.  [Fetch], [ReadAll] and [Unmarshal] are used
    both for the manifest and, once the blob descriptor has been asked for,
    for the template. *)
Inductive Stage : Type :=
| ClientCreation | ManifestResolution | BlobFetch | TemplateDecode
| Submission | CompletionWait | ResultRetrieval.

Definition opens_blob_stage (en : entry) : bool :=
  match made en with
  | BlobsResolve _ _ => true
  | _ => false
  end.

Definition stage_of (blob : bool) (en : entry) : Stage :=
  match made en with
  | NewRepository _ => ClientCreation
  | Resolve _ _ => ManifestResolution
  | Fetch _ _ | ReadAll _ _ | Close _ => if blob then BlobFetch else ManifestResolution
  | BlobsResolve _ _ => BlobFetch
  | Unmarshal _ => if blob then TemplateDecode else ManifestResolution
  | UnixNano | CreateOrUpdate _ _ _ _ => Submission
  | WaitForCompletionRef _ _ => CompletionWait
  | Result _ _ => ResultRetrieval
  end.

(** The first collaborator failure of an execution, with its stage. *)
Fixpoint first_failure_from (blob : bool) (t : trace) : option (Stage * cause) :=
  match t with
  | [] => None
  | en :: rest =>
      match failure_of en with
      | Some c => Some (stage_of blob en, c)
      | None => first_failure_from (blob || opens_blob_stage en) rest
      end
  end.

Definition first_failure (t : trace) : option (Stage * cause) :=
  first_failure_from false t.

Definition is_submission (en : entry) : bool :=
  match made en with
  | CreateOrUpdate _ _ _ _ => true
  | _ => false
  end.

(** Number of deployment submissions in a trace. *)
Definition submissions (t : trace) : nat := length (filter is_submission t).

Definition submitted (en : entry) : option string :=
  match made en with
  | CreateOrUpdate _ _ deploymentName _ => Some deploymentName
  | _ => None
  end.

(** The deployment name handed to the backend. *)
Definition submitted_name (t : trace) : option string := head (omap submitted t).

Definition clock_reading (en : entry) : option Z :=
  match made en in Event X return X -> option Z with
  | UnixNano => Some
  | _ => fun _ => None
  end (reply en).

Definition reported (en : entry) : option DeploymentExtended :=
  match made en in Event X return X -> option DeploymentExtended with
  | Result _ _ => fun r => if snd r is None then Some (fst r) else None
  | _ => fun _ => None
  end (reply en).

(** The terminal result the backend reported, when it was retrieved. *)
Definition terminal_result (t : trace) : option DeploymentExtended :=
  head (omap reported t).

Definition decoding (en : entry) : option (gmap string any) :=
  match made en in Event X return X -> option (gmap string any) with
  | Unmarshal _ => fun r => if snd r is None then Some (fst r) else None
  | _ => fun _ => None
  end (reply en).

(** The first document [json.Unmarshal] decoded without error. *)
Definition decoded (t : trace) : option (gmap string any) := head (omap decoding t).

(** ** Reference strings, as the specification describes them *)

Definition colon : ascii := ":"%char.

Fixpoint has_colon (s : string) : bool :=
  match s with
  | EmptyString => false
  | String c rest => if Ascii.eqb c colon then true else has_colon rest
  end.

(** The text before the first colon (all of [s] when it has none). *)
Fixpoint before_colon (s : string) : string :=
  match s with
  | EmptyString => ""
  | String c rest => if Ascii.eqb c colon then "" else String c (before_colon rest)
  end.

(** The whole remainder after the first colon. *)
Fixpoint after_colon (s : string) : string :=
  match s with
  | EmptyString => ""
  | String c rest => if Ascii.eqb c colon then rest else after_colon rest
  end.

(** "Split on the first colon only": repository before it, tag the entire
    remainder. *)
Definition splits_on_first_colon_only : Prop :=
  forall s : string, has_colon s = true ->
    splitTemplatePath s = Done (before_colon s, after_colon s).

(** ** Error reporting, as the specification describes it *)

(** [e] carries the text of [c] behind a non-empty prefix. *)
Definition wraps_with_prefix (e : error) (c : cause) : Prop :=
  exists pre : string, pre <> "" /\ e = Errorf (pre ++ text c).

(** "Every stage wraps the cause with a stage-identifying prefix." *)
Definition every_stage_wraps : Prop :=
  forall (h : stub) (handler : azureRecipeHandler) (tp sub rg : string) o t st c,
    run h (DeployRecipe handler tp sub rg) [] = (o, t) ->
    first_failure t = Some (st, c) ->
    exists e, o = Returned (None, Some e) /\ wraps_with_prefix e c.

(** What [DeployRecipe] returns as the error when a collaborator fails with
    [c] in stage [st]. *)
Definition stage_error (st : Stage) (c : cause) : error :=
  match st with
  | ClientCreation => Errorf ("failed to create client to registry " ++ text c)
  | ManifestResolution => Errorf ("failed to fetch recipe manifest from registry " ++ text c)
  | BlobFetch => Errorf ("failed to fetch recipe template from registry " ++ text c)
  | TemplateDecode | Submission | CompletionWait | ResultRetrieval => Foreign c
  end.

(** ** Collaborator stubs for concrete executions *)

Definition dquote : string := String "034"%char "".

(** A registry holding one artifact and a backend that accepts every
    submission: the manifest text decodes to [manifest], the layer blob is
    [blob] and decodes to [template], the clock reads [now] and the operation
    ends with [result]. *)
Definition scenario (manifestText : string) (manifest : gmap string any)
    (blob : list Byte.byte * option cause) (template : gmap string any * option cause)
    (now : Z) (result : DeploymentExtended * option cause) : stub :=
  fun X _ e =>
    match e in Event X return X with
    | NewRepository _ => (RepositoryHandle 1, None)
    | Resolve _ _ =>
        ({| MediaType := "application/vnd.oci.image.manifest.v1+json";
            Digest := "sha256:0001"; Size := Z.of_nat (String.length manifestText) |}, None)
    | Fetch _ d =>
        (ReadCloserHandle (if String.eqb (Digest d) "sha256:0001" then 1 else 2), None)
    | ReadAll rc _ =>
        if Nat.eqb (streamId rc) 1 then (list_byte_of_string manifestText, None) else blob
    | Close _ => None
    | BlobsResolve _ digest =>
        ({| MediaType := "application/vnd.oci.image.layer.v1.tar";
            Digest := digest; Size := Z.of_nat (length (fst blob)) |}, None)
    | Unmarshal data =>
        if String.eqb (string_of_list_byte data) manifestText then (manifest, None)
        else template
    | UnixNano => now
    | CreateOrUpdate _ _ _ _ => (FutureHandle 1, None)
    | WaitForCompletionRef _ _ => None
    | Result _ _ => result
    end.

(** [{"layers":[{"digest":"sha256:abcd"}]}] *)
Definition manifestText : string :=
  "{" ++ dquote ++ "layers" ++ dquote ++ ":[{" ++ dquote ++ "digest" ++ dquote ++ ":"
      ++ dquote ++ "sha256:abcd" ++ dquote ++ "}]}".

Definition manifest : gmap string any :=
  {[ "layers" := Slice [Map {[ "digest" := Str "sha256:abcd" ]}] ]}.

(** [{"resources":[]}] *)
Definition templateText : string :=
  "{" ++ dquote ++ "resources" ++ dquote ++ ":[]}".

Definition template : gmap string any := {[ "resources" := Slice [] ]}.

Definition bus1 : string :=
  "/subscriptions/s1/resourceGroups/rg1/providers/Microsoft.ServiceBus/namespaces/bus1".

Definition queue1 : string :=
  "/subscriptions/s1/resourceGroups/rg1/providers/Microsoft.ServiceBus/namespaces/bus1/queues/q1".

Definition terminal (state : string) (outputs : option (list ResourceReference))
  : DeploymentExtended * option cause :=
  ({| Properties := Some {| ProvisioningState := state; OutputResources := outputs |} |}, None).

Definition reference : string := "myregistry.example/recipes/rabbitmq:v1".

Definition recipeHandler : azureRecipeHandler :=
  {| arm := Some {| Auth := AuthorizerHandle 1 |} |}.

(** The backend succeeds and reports two output resources. *)
Definition succeeding : stub :=
  scenario manifestText manifest (list_byte_of_string templateText, None) (template, None)
    1667194000123456789
    (terminal "Succeeded" (Some [ {| ID := Some bus1 |}; {| ID := Some queue1 |} ])).

(** The backend ends in [Failed]. *)
Definition failing : stub :=
  scenario manifestText manifest (list_byte_of_string templateText, None) (template, None)
    1667194000123456789 (terminal "Failed" None).

(** The backend succeeds and reports no [outputResources] field. *)
Definition without_outputs : stub :=
  scenario manifestText manifest (list_byte_of_string templateText, None) (template, None)
    1667194000123456789 (terminal "Succeeded" None).

(** The blob download breaks with a transport error. *)
Definition broken_blob : stub :=
  scenario manifestText manifest ([], Some (Cause "connection reset by peer"))
    (template, None) 1667194000123456789 (terminal "Succeeded" (Some [])).

(** The layer blob is not JSON. *)
Definition garbled_template : stub :=
  scenario manifestText manifest (list_byte_of_string "not json", None)
    (∅, Some (Cause "invalid character 'o' in literal null (expecting 'u')"))
    1667194000123456789 (terminal "Succeeded" (Some [])).

(** The manifest is [{"layers":[]}]. *)
Definition empty_layers : stub :=
  scenario ("{" ++ dquote ++ "layers" ++ dquote ++ ":[]}") {[ "layers" := Slice [] ]}
    (list_byte_of_string templateText, None) (template, None)
    1667194000123456789 (terminal "Succeeded" (Some [])).

(** The manifest is [{"layers":[{"size":3}]}]: a first layer without digest. *)
Definition digestless_layer : stub :=
  scenario ("{" ++ dquote ++ "layers" ++ dquote ++ ":[{" ++ dquote ++ "size" ++ dquote ++ ":3}]}")
    {[ "layers" := Slice [Map {[ "size" := Float64 4613937818241073152 ]}] ]}
    (list_byte_of_string templateText, None) (template, None)
    1667194000123456789 (terminal "Succeeded" (Some [])).

(** ** The constructor of the handler *)

(** [NewRecipeHandler] creates a recipe handler around the ARM configuration
    it is given; the pointer is stored as it comes, nil included. *)
Definition NewRecipeHandler (arm : option ArmConfig) : azureRecipeHandler :=
  {| arm := arm |}.

(** ** Further readings of a trace *)

Definition is_close (en : entry) : bool :=
  match made en with
  | Close _ => true
  | _ => false
  end.

Definition opening (en : entry) : option ReadCloser :=
  match made en in Event X return X -> option ReadCloser with
  | Fetch _ _ => fun r => if snd r is None then Some (fst r) else None
  | _ => fun _ => None
  end (reply en).

(** The streams a successful [Fetch] handed out, in order. *)
Definition opened (t : trace) : list ReadCloser := omap opening t.

Definition closing (en : entry) : option ReadCloser :=
  match made en with
  | Close rc => Some rc
  | _ => None
  end.

(** The streams [Close] was called on, in order. *)
Definition closed (t : trace) : list ReadCloser := omap closing t.

(** What was called after the first collaborator failure. *)
Fixpoint after_first_failure (t : trace) : trace :=
  match t with
  | [] => []
  | en :: rest =>
      if failure_of en is Some _ then rest else after_first_failure rest
  end.

Definition submission (en : entry)
  : option (DeploymentsClient * string * string * Deployment) :=
  match made en with
  | CreateOrUpdate client resourceGroupName deploymentName parameters =>
      Some (client, resourceGroupName, deploymentName, parameters)
  | _ => None
  end.

(** The deployments handed to the backend, with scope and name. *)
Definition submitted_deployments (t : trace)
  : list (DeploymentsClient * string * string * Deployment) := omap submission t.

Definition blob_request (en : entry) : option string :=
  match made en with
  | BlobsResolve _ reference => Some reference
  | _ => None
  end.

(** The digests the blob store was asked to resolve. *)
Definition requested_blobs (t : trace) : list string := omap blob_request t.

Definition reading (en : entry) : option (list Byte.byte) :=
  match made en in Event X return X -> option (list Byte.byte) with
  | ReadAll _ _ => fun r => if snd r is None then Some (fst r) else None
  | _ => fun _ => None
  end (reply en).

(** The payloads read in full from a stream without error. *)
Definition payloads (t : trace) : list (list Byte.byte) := omap reading t.

Definition decode_input (en : entry) : option (list Byte.byte) :=
  match made en with
  | Unmarshal data => Some data
  | _ => None
  end.

(** The byte strings handed to [json.Unmarshal]. *)
Definition decode_inputs (t : trace) : list (list Byte.byte) := omap decode_input t.

Definition client_request (en : entry) : option string :=
  match made en with
  | NewRepository reference => Some reference
  | _ => None
  end.

Definition tag_request (en : entry) : option string :=
  match made en with
  | Resolve _ reference => Some reference
  | _ => None
  end.

(** The pieces of a reference put together again with the separator between
    them. *)
Fixpoint rejoin (sep : string) (pieces : list string) : string :=
  match pieces with
  | [] => ""
  | [piece] => piece
  | piece :: rest => piece ++ sep ++ rejoin sep rest
  end.

(** ** More collaborator stubs *)

(** The registry does not know the tag. *)
Definition unknown_tag : stub :=
  fun X past e =>
    match e in Event X return X with
    | Resolve _ _ =>
        ({| MediaType := ""; Digest := ""; Size := 0 |}, Some (Cause "v9: not found"))
    | e' => succeeding _ past e'
    end.

(** The manifest is [{"layers":["sha256:abcd"]}]: the first layer is a string. *)
Definition string_layer : stub :=
  scenario ("{" ++ dquote ++ "layers" ++ dquote ++ ":[" ++ dquote ++ "sha256:abcd" ++ dquote ++ "]}")
    {[ "layers" := Slice [Str "sha256:abcd"] ]}
    (list_byte_of_string templateText, None) (template, None)
    1667194000123456789 (terminal "Succeeded" (Some [])).

(** The manifest is [{"layers":{"digest":"sha256:abcd"}}]: an object where the
    array should be. *)
Definition layers_object : stub :=
  scenario ("{" ++ dquote ++ "layers" ++ dquote ++ ":{" ++ dquote ++ "digest" ++ dquote ++ ":"
              ++ dquote ++ "sha256:abcd" ++ dquote ++ "}}")
    {[ "layers" := Map {[ "digest" := Str "sha256:abcd" ]} ]}
    (list_byte_of_string templateText, None) (template, None)
    1667194000123456789 (terminal "Succeeded" (Some [])).

(** ** The delete controller of the RabbitMQ message queue connector *)

Module rabbitmqmessagequeues.

(** The responses the controller builds: [rest.NewNoContentResponse()],
    [rest.NewPreconditionFailedResponse(target, message)] and
    [rest.NewOKResponse(body)]. *)
Inductive Response : Type :=
| NoContentResponse
| PreconditionFailedResponse (target message : string)
| OKResponse (body : any).

(** The request context; [ResourceID] stands for [ResourceID.String()], the
    only part of it the controller reads itself. *)
Record ARMRequestContext : Type := { ResourceID : string }.

(** What the controller calls and does not define: the request context found
    in [ctx], [GetResource] of the base controller (resource read into
    [existingResource], ETag returned), [errors.Is(&store.ErrNotFound{}, err)],
    [ctrl.ValidateETag] and [DataStore.Delete].  Each is called at most once
    in a run, so a function of the arguments describes every run. *)
Record Collaborators : Type :=
  { ARMRequestContextFromContext : option ARMRequestContext;
    GetResource : string -> string * option cause;
    IsNotFound : cause -> bool;
    ValidateETag : ARMRequestContext -> string -> option cause;
    DataStoreDelete : string -> option cause }.

(** The calls made to the store and to the validator, in order. *)
Inductive StoreCall : Type :=
| GetResourceCall (id : string)
| ValidateETagCall (etag : string)
| DeleteCall (id : string).

(** [Run] of [DeleteRabbitMQMessageQueue]: the response and error returned,
    with the calls made. *)
Definition Run (w : Collaborators)
  : outcome (option Response * option error) * list StoreCall :=
  match ARMRequestContextFromContext w with
  | None => (Panicked NilDereference, [])
  | Some serviceCtx =>
      let id := ResourceID serviceCtx in
      let '(etag, err) := GetResource w id in
      match err with
      | Some e =>
          if IsNotFound w e
          then (Returned (Some NoContentResponse, None), [GetResourceCall id])
          else (Returned (None, Some (Foreign e)), [GetResourceCall id])
      | None =>
          if String.eqb etag ""
          then (Returned (Some NoContentResponse, None), [GetResourceCall id])
          else
            match ValidateETag w serviceCtx etag with
            | Some e =>
                (Returned (Some (PreconditionFailedResponse id (text e)), None),
                 [GetResourceCall id; ValidateETagCall etag])
            | None =>
                match DataStoreDelete w id with
                | Some e =>
                    if IsNotFound w e
                    then (Returned (Some NoContentResponse, None),
                          [GetResourceCall id; ValidateETagCall etag; DeleteCall id])
                    else (Returned (None, Some (Foreign e)),
                          [GetResourceCall id; ValidateETagCall etag; DeleteCall id])
                | None =>
                    (Returned (Some (OKResponse Nil), None),
                     [GetResourceCall id; ValidateETagCall etag; DeleteCall id])
                end
            end
      end
  end.

(** A store holding resource ids with their ETags, and a request for [id]
    whose [If-Match] header is [ifMatch] (empty: no condition). *)
Definition stored (store : gmap string string) (ifMatch id : string) : Collaborators :=
  {| ARMRequestContextFromContext := Some {| ResourceID := id |};
     GetResource := fun i =>
       match store !! i with
       | Some etag => (etag, None)
       | None => ("", Some (Cause "the resource was not found"))
       end;
     IsNotFound := fun c => String.eqb (text c) "the resource was not found";
     ValidateETag := fun _ etag =>
       if String.eqb ifMatch "" || String.eqb ifMatch etag then None
       else Some (Cause "the resource has a different etag");
     DataStoreDelete := fun i =>
       match store !! i with
       | Some _ => None
       | None => Some (Cause "the resource was not found")
       end |}.

(** The same store when its connection is down. *)
Definition unreachable (id : string) : Collaborators :=
  {| ARMRequestContextFromContext := Some {| ResourceID := id |};
     GetResource := fun _ => ("", Some (Cause "connection refused"));
     IsNotFound := fun c => String.eqb (text c) "the resource was not found";
     ValidateETag := fun _ _ => None;
     DataStoreDelete := fun _ => Some (Cause "connection refused") |}.

Definition queue : string :=
  "/planes/radius/local/resourceGroups/rg1/providers/Applications.Connector/rabbitMQMessageQueues/q1".

End rabbitmqmessagequeues.

(** ** The conversion of the Dapr secret store resource *)

Module to.

(** [to.String], [to.StringPtr], [to.StringMap] and [to.StringMapPtr] of
    go-autorest: nil reads as the empty string, and the maps built are never
    nil. *)
Definition String (s : option string) : string := default "" s.

Definition StringPtr (s : string) : option string := Some s.

Definition StringMap (msp : gmap string (option string)) : gmap string string :=
  default "" <$> msp.

Definition StringMapPtr (ms : gmap string string)
  : option (gmap string (option string)) :=
  Some (Some <$> ms).

End to.

Module datamodel.

(** The version-agnostic model, as far as the conversion reads and writes
    it.  The declarations are not part of the sources at hand: the fields
    are those the two functions name, with the types their use fixes
    ([to.String] gives a string, [Metadata] is copied from a
    [map[string]interface{}], the enumerations are string types).  The
    embedded [TrackedResource], [BasicResourceProperties] and
    [InternalMetadata] are laid out flat, as Go's promoted fields read.
    Output resources and system data are passed on unread and are kept as
    handles. *)
Record OutputResource : Type := OutputResourceHandle { outputResourceId : nat }.
Record SystemData : Type := SystemDataHandle { systemDataId : nat }.

Record LinkRecipe : Type :=
  { Name : string; Parameters : option (gmap string any) }.

Record DaprSecretStoreProperties : Type :=
  { Environment : string;
    Application : string;
    OutputResources : list OutputResource;   (* Status.OutputResources *)
    ProvisioningState : string;
    Mode : string;
    Type_ : string;
    Version : string;
    Metadata : option (gmap string any);
    Recipe : LinkRecipe;
    Kind : string;
    ComponentName : string }.

Record DaprSecretStore : Type :=
  { ID : string;
    ResourceName : string;
    ResourceType : string;
    Location : string;
    Tags : gmap string string;
    Sys : SystemData;
    Properties : DaprSecretStoreProperties;
    UpdatedAPIVersion : string }.

(** What a [conv.DataModelInterface] value can hold: a pointer to a secret
    store (possibly nil), a model of another resource type, or nothing. *)
Inductive DataModelInterface : Type :=
| DaprSecretStorePtr (p : option DaprSecretStore)
| OtherModel
| NoModel.

End datamodel.

Module v20220315privatepreview.

(** The versioned resource, as far as the conversion reads and writes it;
    like the model, it is declared outside the sources at hand.  Pointers
    are options. *)
Record Recipe : Type :=
  { RecipeName : option string; RecipeParameters : option (gmap string any) }.

Record ResourceStatus : Type := { OutputResources : list (gmap string any) }.

Record SystemData : Type := SystemDataHandle { systemDataId : nat }.

(** The common part [GetDaprSecretStoreProperties] hands out. *)
Record DaprSecretStoreProperties : Type :=
  { Environment : option string;
    Application : option string;
    ProvisioningState : option string }.

Record ValuesDaprSecretStoreProperties : Type :=
  { ValuesStatus : option ResourceStatus;
    ValuesProvisioningState : option string;
    ValuesEnvironment : option string;
    ValuesApplication : option string;
    ValuesKind : option string;
    ValuesMode : option string;
    ValuesType : option string;
    ValuesVersion : option string;
    ValuesMetadata : option (gmap string any);
    ValuesComponentName : option string }.

Record RecipeDaprSecretStoreProperties : Type :=
  { RecipeStatus : option ResourceStatus;
    RecipeProvisioningState : option string;
    RecipeEnvironment : option string;
    RecipeApplication : option string;
    RecipeMode : option string;
    RecipeType : option string;
    RecipeVersion : option string;
    RecipeMetadata : option (gmap string any);
    RecipeComponentName : option string;
    RecipeRecipe : option Recipe }.

(** What the interface field [Properties] can hold: a pointer to one of the
    two property types (possibly nil), or another implementation. *)
Inductive DaprSecretStorePropertiesClassification : Type :=
| ValuesPtr (v : option ValuesDaprSecretStoreProperties)
| RecipePtr (r : option RecipeDaprSecretStoreProperties)
| OtherProperties.

Record DaprSecretStoreResource : Type :=
  { ID : option string;
    Name : option string;
    Type_ : option string;
    Sys : option SystemData;
    Location : option string;
    Tags : option (gmap string (option string));
    Properties : option DaprSecretStorePropertiesClassification }.

(** The errors of package [conv] the conversion returns. *)
Inductive convError : Type :=
| ClientErrInvalidRequest (message : string)   (* conv.NewClientErrInvalidRequest *)
| ErrInvalidModelConversion.

(** The constants and functions the conversion uses and the sources at hand
    do not define. *)
Record Declarations : Type :=
  { Version : string;
    DaprSecretStorePropertiesModeValues : string;
    DaprSecretStorePropertiesModeRecipe : string;
    ValuesDaprSecretStorePropertiesKindGeneric : string;
    datamodel_DaprSecretStorePropertiesModeValues : string;
    datamodel_DaprSecretStorePropertiesModeRecipe : string;
    datamodel_DaprSecretStoreKindGeneric : string;
    datamodel_DaprSecretStoreKindUnknown : string;
    GetDaprSecretStoreProperties :
      DaprSecretStorePropertiesClassification -> option DaprSecretStoreProperties;
    toProvisioningStateDataModel : option string -> string;
    fromProvisioningStateDataModel : string -> option string;
    toRecipeDataModel : Recipe -> datamodel.LinkRecipe;
    fromRecipeDataModel : datamodel.LinkRecipe -> option Recipe;
    fromSystemDataModel : datamodel.SystemData -> option SystemData;
    BuildExternalOutputResources :
      list datamodel.OutputResource -> list (gmap string any) }.

(** A computation that may panic, with its sequencing. *)
Definition andThen {A B : Type} (x : outcome A) (f : A -> outcome B) : outcome B :=
  match x with
  | Returned a => f a
  | Panicked p => Panicked p
  end.

(** [*p] and the field reads behind a pointer. *)
Definition load {A : Type} (p : option A) : outcome A :=
  match p with
  | Some a => Returned a
  | None => Panicked NilDereference
  end.

Definition toDaprSecretStoreKindDataModel (d : Declarations) (kind : option string)
  : outcome string :=
  andThen (load kind) (fun k =>
  if String.eqb k (ValuesDaprSecretStorePropertiesKindGeneric d)
  then Returned (datamodel_DaprSecretStoreKindGeneric d)
  else Returned (datamodel_DaprSecretStoreKindUnknown d)).

Definition fromDaprSecretStoreKindDataModel (d : Declarations) (kind : string)
  : option string :=
  let convertedKind :=
    if String.eqb kind (datamodel_DaprSecretStoreKindGeneric d)
    then ValuesDaprSecretStorePropertiesKindGeneric d
    else ValuesDaprSecretStorePropertiesKindGeneric d in
  Some convertedKind.

(** The zero values the composite literal of [ConvertTo] leaves in place. *)
Definition zeroRecipe : datamodel.LinkRecipe :=
  {| datamodel.Name := ""; datamodel.Parameters := None |}.

Definition zeroSystemData : datamodel.SystemData := datamodel.SystemDataHandle 0.

(** [ConvertTo] converts from the versioned DaprSecretStore resource to the
    version-agnostic datamodel. *)
Definition ConvertTo (d : Declarations) (receiver : option DaprSecretStoreResource)
  : outcome (option datamodel.DaprSecretStore * option convError) :=
  andThen (load receiver) (fun src =>
  andThen (load (Properties src)) (fun properties =>
  andThen (load (GetDaprSecretStoreProperties d properties)) (fun base1 =>
  andThen (load (GetDaprSecretStoreProperties d properties)) (fun base2 =>
  andThen (load (GetDaprSecretStoreProperties d properties)) (fun base3 =>
  let converted :=
    {| datamodel.ID := to.String (ID src);
       datamodel.ResourceName := to.String (Name src);
       datamodel.ResourceType := to.String (Type_ src);
       datamodel.Location := to.String (Location src);
       datamodel.Tags := to.StringMap (default ∅ (Tags src));
       datamodel.Sys := zeroSystemData;
       datamodel.Properties :=
         {| datamodel.Environment := to.String (Environment base1);
            datamodel.Application := to.String (Application base2);
            datamodel.OutputResources := [];
            datamodel.ProvisioningState :=
              toProvisioningStateDataModel d (ProvisioningState base3);
            datamodel.Mode := "";
            datamodel.Type_ := "";
            datamodel.Version := "";
            datamodel.Metadata := None;
            datamodel.Recipe := zeroRecipe;
            datamodel.Kind := "";
            datamodel.ComponentName := "" |};
       datamodel.UpdatedAPIVersion := Version d |} in
  let props := datamodel.Properties converted in
  let withProperties (p : datamodel.DaprSecretStoreProperties) :=
    {| datamodel.ID := datamodel.ID converted;
       datamodel.ResourceName := datamodel.ResourceName converted;
       datamodel.ResourceType := datamodel.ResourceType converted;
       datamodel.Location := datamodel.Location converted;
       datamodel.Tags := datamodel.Tags converted;
       datamodel.Sys := datamodel.Sys converted;
       datamodel.Properties := p;
       datamodel.UpdatedAPIVersion := datamodel.UpdatedAPIVersion converted |} in
  match properties with
  | ValuesPtr pv =>
      andThen (load pv) (fun v =>
      match ValuesType v, ValuesVersion v, ValuesMetadata v with
      | Some _, Some _, Some _ =>
          andThen (toDaprSecretStoreKindDataModel d (ValuesKind v)) (fun kind =>
          Returned
            (Some (withProperties
               {| datamodel.Environment := datamodel.Environment props;
                  datamodel.Application := datamodel.Application props;
                  datamodel.OutputResources := datamodel.OutputResources props;
                  datamodel.ProvisioningState := datamodel.ProvisioningState props;
                  datamodel.Mode := datamodel_DaprSecretStorePropertiesModeValues d;
                  datamodel.Type_ := to.String (ValuesType v);
                  datamodel.Version := to.String (ValuesVersion v);
                  datamodel.Metadata := ValuesMetadata v;
                  datamodel.Recipe := datamodel.Recipe props;
                  datamodel.Kind := kind;
                  datamodel.ComponentName := datamodel.ComponentName props |}),
             None))
      | _, _, _ =>
          Returned (None, Some (ClientErrInvalidRequest
            "type/version/metadata are required properties for mode 'values'"))
      end)
  | RecipePtr pr =>
      andThen (load pr) (fun v =>
      match RecipeRecipe v with
      | None =>
          Returned (None, Some (ClientErrInvalidRequest
            "recipe is a required property for mode 'recipe'"))
      | Some recipe =>
          Returned
            (Some (withProperties
               {| datamodel.Environment := datamodel.Environment props;
                  datamodel.Application := datamodel.Application props;
                  datamodel.OutputResources := datamodel.OutputResources props;
                  datamodel.ProvisioningState := datamodel.ProvisioningState props;
                  datamodel.Mode := datamodel_DaprSecretStorePropertiesModeValues d;
                  datamodel.Type_ := to.String (RecipeType v);
                  datamodel.Version := to.String (RecipeVersion v);
                  datamodel.Metadata := RecipeMetadata v;
                  datamodel.Recipe := toRecipeDataModel d recipe;
                  datamodel.Kind := datamodel.Kind props;
                  datamodel.ComponentName := datamodel.ComponentName props |}),
             None)
      end)
  | OtherProperties =>
      Returned (None, Some (ClientErrInvalidRequest "Invalid Mode for DaprSecretStore"))
  end))))).

(** [ConvertFrom] converts from version-agnostic datamodel to the versioned
    DaprSecretStore resource: the resource behind [dst] after the call, and
    the error returned. *)
Definition ConvertFrom (d : Declarations) (dst : option DaprSecretStoreResource)
    (src : datamodel.DataModelInterface)
  : outcome (option DaprSecretStoreResource * option convError) :=
  match src with
  | datamodel.DaprSecretStorePtr p =>
      andThen (load p) (fun daprSecretStore =>
      andThen (load dst) (fun old =>
      andThen (load (to.StringMapPtr (datamodel.Tags daprSecretStore))) (fun tags =>
      let properties := datamodel.Properties daprSecretStore in
      let withProperties (p : option DaprSecretStorePropertiesClassification) :=
        {| ID := to.StringPtr (datamodel.ID daprSecretStore);
           Name := to.StringPtr (datamodel.ResourceName daprSecretStore);
           Type_ := to.StringPtr (datamodel.ResourceType daprSecretStore);
           Sys := fromSystemDataModel d (datamodel.Sys daprSecretStore);
           Location := to.StringPtr (datamodel.Location daprSecretStore);
           Tags := Some tags;
           Properties := p |} in
      if String.eqb (datamodel.Mode properties)
           (datamodel_DaprSecretStorePropertiesModeValues d)
      then
        let mode := DaprSecretStorePropertiesModeValues d in
        Returned
          (Some (withProperties (Some (ValuesPtr (Some
             {| ValuesStatus :=
                  Some {| OutputResources :=
                            BuildExternalOutputResources d
                              (datamodel.OutputResources properties) |};
                ValuesProvisioningState :=
                  fromProvisioningStateDataModel d (datamodel.ProvisioningState properties);
                ValuesEnvironment := to.StringPtr (datamodel.Environment properties);
                ValuesApplication := to.StringPtr (datamodel.Application properties);
                ValuesKind := fromDaprSecretStoreKindDataModel d (datamodel.Kind properties);
                ValuesMode := Some mode;
                ValuesType := to.StringPtr (datamodel.Type_ properties);
                ValuesVersion := to.StringPtr (datamodel.Version properties);
                ValuesMetadata := datamodel.Metadata properties;
                ValuesComponentName :=
                  to.StringPtr (datamodel.ComponentName properties) |})))),
           None)
      else if String.eqb (datamodel.Mode properties)
                (datamodel_DaprSecretStorePropertiesModeRecipe d)
      then
        let mode := DaprSecretStorePropertiesModeRecipe d in
        let recipe :=
          if negb (String.eqb (datamodel.Name (datamodel.Recipe properties)) "")
          then fromRecipeDataModel d (datamodel.Recipe properties)
          else None in
        Returned
          (Some (withProperties (Some (RecipePtr (Some
             {| RecipeStatus :=
                  Some {| OutputResources :=
                            BuildExternalOutputResources d
                              (datamodel.OutputResources properties) |};
                RecipeProvisioningState :=
                  fromProvisioningStateDataModel d (datamodel.ProvisioningState properties);
                RecipeEnvironment := to.StringPtr (datamodel.Environment properties);
                RecipeApplication := to.StringPtr (datamodel.Application properties);
                RecipeMode := Some mode;
                RecipeType := to.StringPtr (datamodel.Type_ properties);
                RecipeVersion := to.StringPtr (datamodel.Version properties);
                RecipeMetadata := datamodel.Metadata properties;
                RecipeComponentName :=
                  to.StringPtr (datamodel.ComponentName properties);
                RecipeRecipe := recipe |})))),
           None)
      else Returned (Some (withProperties (Properties old)), None))))
  | _ => Returned (dst, Some ErrInvalidModelConversion)
  end.

(** Declarations for concrete conversions: the API version of the package
    and plain names for the enumeration values; the helper conversions pass
    their argument on. *)
Definition declared : Declarations :=
  {| Version := "2022-03-15-privatepreview";
     DaprSecretStorePropertiesModeValues := "values";
     DaprSecretStorePropertiesModeRecipe := "recipe";
     ValuesDaprSecretStorePropertiesKindGeneric := "generic";
     datamodel_DaprSecretStorePropertiesModeValues := "values";
     datamodel_DaprSecretStorePropertiesModeRecipe := "recipe";
     datamodel_DaprSecretStoreKindGeneric := "generic";
     datamodel_DaprSecretStoreKindUnknown := "unknown";
     GetDaprSecretStoreProperties := fun p =>
       match p with
       | ValuesPtr (Some v) =>
           Some {| Environment := ValuesEnvironment v;
                   Application := ValuesApplication v;
                   ProvisioningState := ValuesProvisioningState v |}
       | RecipePtr (Some r) =>
           Some {| Environment := RecipeEnvironment r;
                   Application := RecipeApplication r;
                   ProvisioningState := RecipeProvisioningState r |}
       | _ => None
       end;
     toProvisioningStateDataModel := to.String;
     fromProvisioningStateDataModel := to.StringPtr;
     toRecipeDataModel := fun r =>
       {| datamodel.Name := to.String (RecipeName r);
          datamodel.Parameters := RecipeParameters r |};
     fromRecipeDataModel := fun r =>
       Some {| RecipeName := to.StringPtr (datamodel.Name r);
               RecipeParameters := datamodel.Parameters r |};
     fromSystemDataModel := fun s => Some (SystemDataHandle (datamodel.systemDataId s));
     BuildExternalOutputResources := fun _ => [] |}.

Definition environment1 : string :=
  "/planes/radius/local/resourceGroups/rg1/providers/Applications.Core/environments/env1".

(** A secret store in mode 'values' with every required property. *)
Definition valuesStore (kind : option string) : DaprSecretStoreResource :=
  {| ID := Some "/planes/radius/local/resourceGroups/rg1/providers/Applications.Link/daprSecretStores/s1";
     Name := Some "s1";
     Type_ := Some "Applications.Link/daprSecretStores";
     Sys := None;
     Location := Some "global";
     Tags := Some {[ "team" := Some "a"; "draft" := None ]};
     Properties := Some (ValuesPtr (Some
       {| ValuesStatus := None;
          ValuesProvisioningState := None;
          ValuesEnvironment := Some environment1;
          ValuesApplication := None;
          ValuesKind := kind;
          ValuesMode := Some "values";
          ValuesType := Some "secretstores.kubernetes";
          ValuesVersion := Some "v1";
          ValuesMetadata := Some {[ "vaultName" := Str "test" ]};
          ValuesComponentName := None |})) |}.

(** A secret store in mode 'recipe'. *)
Definition recipeStore (recipe : option Recipe) : DaprSecretStoreResource :=
  {| ID := Some "/planes/radius/local/resourceGroups/rg1/providers/Applications.Link/daprSecretStores/s2";
     Name := Some "s2";
     Type_ := Some "Applications.Link/daprSecretStores";
     Sys := None;
     Location := Some "global";
     Tags := None;
     Properties := Some (RecipePtr (Some
       {| RecipeStatus := None;
          RecipeProvisioningState := None;
          RecipeEnvironment := Some environment1;
          RecipeApplication := None;
          RecipeMode := Some "recipe";
          RecipeType := None;
          RecipeVersion := None;
          RecipeMetadata := None;
          RecipeComponentName := None;
          RecipeRecipe := recipe |})) |}.

Definition redisRecipe : Recipe :=
  {| RecipeName := Some "redis-secretstore"; RecipeParameters := None |}.

(** A model whose mode was never set. *)
Definition blankModel : datamodel.DaprSecretStore :=
  {| datamodel.ID := "/planes/radius/local/resourceGroups/rg1/providers/Applications.Link/daprSecretStores/s3";
     datamodel.ResourceName := "s3";
     datamodel.ResourceType := "Applications.Link/daprSecretStores";
     datamodel.Location := "global";
     datamodel.Tags := {[ "team" := "a" ]};
     datamodel.Sys := zeroSystemData;
     datamodel.Properties :=
       {| datamodel.Environment := environment1;
          datamodel.Application := "";
          datamodel.OutputResources := [];
          datamodel.ProvisioningState := "";
          datamodel.Mode := "";
          datamodel.Type_ := "";
          datamodel.Version := "";
          datamodel.Metadata := None;
          datamodel.Recipe := zeroRecipe;
          datamodel.Kind := "";
          datamodel.ComponentName := "" |};
     datamodel.UpdatedAPIVersion := "2022-03-15-privatepreview" |}.

Definition emptyResource : DaprSecretStoreResource :=
  {| ID := None; Name := None; Type_ := None; Sys := None; Location := None;
     Tags := None; Properties := None |}.

End v20220315privatepreview.

(** ** Facts about [strings.Split] at [":"] *)

Lemma append_cons (x : ascii) (a b : string) : String x a ++ b = String x (a ++ b).
Proof. reflexivity. Qed.

Lemma append_snoc (a b : string) (c : ascii) :
  (a ++ String c "") ++ b = a ++ String c b.
Proof.
  induction a as [|x a IH]; [reflexivity |].
  now rewrite !append_cons, IH.
Qed.

Lemma append_empty (a : string) : a ++ "" = a.
Proof.
  induction a as [|x a IH]; [reflexivity |].
  now rewrite append_cons, IH.
Qed.

Lemma prefix_colon (c : ascii) (rest : string) :
  String.prefix ":" (String c rest) = Ascii.eqb c colon.
Proof.
  change (String.prefix ":" (String c rest))
    with (if ascii_dec ":" c then String.prefix "" rest else false).
  destruct (ascii_dec ":" c) as [<-|Hne].
  - now destruct rest.
  - symmetry. apply Ascii.eqb_neq. unfold colon. congruence.
Qed.

(** Scanning cuts at the first colon and starts afresh behind it. *)
Lemma splitFrom_colon (s cur : string) :
  strings.splitFrom ":" 0 cur s
  = (cur ++ before_colon s) ::
    (if has_colon s then strings.splitFrom ":" 0 "" (after_colon s) else []).
Proof.
  revert cur; induction s as [|c rest IH]; intros cur.
  - simpl. now rewrite append_empty.
  - cbn [strings.splitFrom before_colon has_colon after_colon].
    rewrite prefix_colon. destruct (Ascii.eqb c colon).
    + now rewrite append_empty.
    + rewrite IH. f_equal. apply append_snoc.
Qed.

Lemma Split_colon (s : string) :
  strings.Split s ":"
  = before_colon s :: (if has_colon s then strings.Split (after_colon s) ":" else []).
Proof. unfold strings.Split. apply splitFrom_colon. Qed.

Lemma splitTemplatePath_no_colon (s : string) :
  has_colon s = false -> splitTemplatePath s = Fault (IndexOutOfRange 1 1).
Proof.
  intros H. unfold splitTemplatePath. rewrite Split_colon, H. reflexivity.
Qed.

Lemma splitTemplatePath_colon (s : string) :
  has_colon s = true ->
  splitTemplatePath s = Done (before_colon s, before_colon (after_colon s)).
Proof.
  intros H. unfold splitTemplatePath.
  rewrite Split_colon, H, Split_colon. reflexivity.
Qed.

Lemma has_colon_nonempty (s : string) : has_colon s = true -> String.eqb s "" = false.
Proof. now destruct s. Qed.

(** ** The loop over the output resources *)

(** The loop makes no call: it ends with a slice or with a nil dereference. *)
Lemma appendIDs_pure (outputResources : list ResourceReference) (result : slice string) :
  (exists r, appendIDs outputResources result = Done r)
  \/ appendIDs outputResources result = Fault NilDereference.
Proof.
  revert result; induction outputResources as [|[[s|]] rest IH]; intros result; cbn.
  - left. now exists result.
  - apply IH.
  - now right.
Qed.

(** When every entry carries its identifier the loop appends them in order. *)
Lemma appendIDs_present (ids : list string) (result : slice string) :
  exists r, appendIDs ((fun s => {| ID := Some s |}) <$> ids) result = Done r
            /\ elems r = (elems result ++ ids)%list.
Proof.
  revert result; induction ids as [|s ids IH]; intros result; cbn.
  - exists result. now rewrite app_nil_r.
  - destruct (IH (append result s)) as (r & Hr & He).
    exists r. split; [exact Hr |].
    rewrite He. unfold append. cbn. now rewrite <- app_assoc.
Qed.

(** ** Symbolic execution against an arbitrary stub *)

(** One case split on whatever blocks the run recorded in [H]: a reply of the
    stub, a dynamic value under a type assertion, a pointer, a slice. *)
Ltac split_scrutinee H :=
  match type of H with
  | context [appendIDs ?l ?acc] =>
      let E := fresh "Hloop" in
      destruct (appendIDs_pure l acc) as [[? E] | E]; rewrite E in H
  | context [assertSlice ?v] => destruct v eqn:?
  | context [index ?l _] => destruct l eqn:?
  | context [assertMap ?v] => destruct v eqn:?
  | context [assertString ?v] => destruct v eqn:?
  | context [deref ?p] => destruct p eqn:?
  | context [match ?x with _ => _ end] =>
      lazymatch x with
      | context [match _ with _ => _ end] => fail
      | _ => destruct x eqn:?
      end
  end.

Ltac execute H := cbn in H; repeat (split_scrutinee H; cbn in H).

(** All executions of [DeployRecipe] from the run recorded in [H]. *)
Ltac execute_DeployRecipe H tp :=
  unfold DeployRecipe in H;
  destruct (has_colon tp) eqn:?;
  [ rewrite splitTemplatePath_colon in H by assumption;
    cbn -[String.eqb] in H;
    rewrite has_colon_nonempty in H by assumption
  | rewrite splitTemplatePath_no_colon in H by assumption ];
  execute H.

Ltac execute_getDigestFromManifest H :=
  unfold getDigestFromManifest in H; execute H.

Lemma not_succeeded (state : string) :
  negb (String.eqb state ProvisioningStateSucceeded) = true <->
  state <> ProvisioningStateSucceeded.
Proof.
  rewrite negb_true_iff. split.
  - intros H ->. now rewrite String.eqb_refl in H.
  - intros H. now apply String.eqb_neq.
Qed.

(** A collaborator failure ends the call with a nil list and the error of
    its stage; a deployment was submitted only if the failure came from the
    backend. *)
Lemma first_failure_outcome h handler tp sub rg o t st c :
  run h (DeployRecipe handler tp sub rg) [] = (o, t) ->
  first_failure t = Some (st, c) ->
  o = Returned (None, Some (stage_error st c))
  /\ submissions t =
       match st with
       | Submission | CompletionWait | ResultRetrieval => 1
       | _ => 0
       end.
Proof.
  intros Hrun Hfail.
  execute_DeployRecipe Hrun tp.
  all: simplify_eq; cbn in Hfail; simplify_eq.
  all: split; reflexivity.
Qed.

(** ** Reference parsing *)

(** C1. The empty reference: [DeployRecipe] panics at the index [1] of the
    one-element split, before the emptiness guard and before any call to a
    collaborator; it does not return an error value. *)
Theorem DeployRecipe_empty_reference_panics (h : stub) (handler : azureRecipeHandler)
    (sub rg : string) :
  run h (DeployRecipe handler "" sub rg) [] = (Panicked (IndexOutOfRange 1 1), []).
Proof. reflexivity. Qed.

(** C5, as the code has it. For a reference with one or more colons the
    repository is the text before the first colon and the tag is the text
    between the first colon and the second (the whole remainder when there is
    no second colon). *)
Theorem reference_split_at_colons (s : string) :
  has_colon s = true ->
  splitTemplatePath s = Done (before_colon s, before_colon (after_colon s)).
Proof. apply splitTemplatePath_colon. Qed.

Lemma reference_split_at_colons_witness :
  splitTemplatePath "localhost:5000/recipes/rabbitmq:v1"
  = Done ("localhost", "5000/recipes/rabbitmq").
Proof. apply (reference_split_at_colons "localhost:5000/recipes/rabbitmq:v1"). reflexivity. Defined.

(** C5 as stated fails: with a second colon the tag is not the entire
    remainder after the first colon. *)
Lemma tag_is_not_whole_remainder : ~ splits_on_first_colon_only.
Proof.
  intros H. specialize (H "localhost:5000/recipes/rabbitmq:v1" eq_refl).
  vm_compute in H. discriminate H.
Qed.

(** C9. A reference without colon (the empty one included) makes
    [DeployRecipe] panic at the index [1] with no call made, and no execution
    at all returns the error of the emptiness guard. *)
Theorem empty_guard_unreachable (h : stub) (handler : azureRecipeHandler)
    (tp sub rg : string) :
  (has_colon tp = false ->
   run h (DeployRecipe handler tp sub rg) [] = (Panicked (IndexOutOfRange 1 1), []))
  /\ (forall l : slice string,
        fst (run h (DeployRecipe handler tp sub rg) [])
        <> Returned (l, Some (Errorf "templatePath cannot be empty"))).
Proof.
  split.
  - intros Hc. unfold DeployRecipe. now rewrite splitTemplatePath_no_colon.
  - intros l Heq.
    destruct (run h (DeployRecipe handler tp sub rg) []) as [o t] eqn:Hrun.
    cbn in Heq. subst o.
    execute_DeployRecipe Hrun tp.
    all: simplify_eq.
Qed.

Lemma empty_guard_unreachable_witness :
  run succeeding (DeployRecipe recipeHandler "rabbitmq" "s1" "rg1") []
  = (Panicked (IndexOutOfRange 1 1), []).
Proof.
  apply (proj1 (empty_guard_unreachable succeeding recipeHandler "rabbitmq" "s1" "rg1")).
  reflexivity.
Defined.

(** ** The manifest *)

(** C2. When the decoded manifest has no [layers] key (or a null one) the
    single-value type assertion panics, and when [layers] is an empty array
    the index [0] panics: in neither case does [getDigestFromManifest]
    return an error. *)
Theorem getDigestFromManifest_missing_layers_panics h repo tag o t m :
  run h (getDigestFromManifest repo tag) [] = (o, t) ->
  decoded t = Some m ->
  (mapIndex m "layers" = Nil -> o = Panicked (InterfaceConversion "[]interface {}"))
  /\ (mapIndex m "layers" = Slice [] -> o = Panicked (IndexOutOfRange 0 0)).
Proof.
  intros Hrun Hdec.
  execute_getDigestFromManifest Hrun.
  all: simplify_eq; cbn in Hdec; simplify_eq.
  all: split; intros Hl; try reflexivity; congruence.
Qed.

Lemma getDigestFromManifest_missing_layers_panics_witness :
  fst (run empty_layers (getDigestFromManifest (RepositoryHandle 1) "v1") [])
  = Panicked (IndexOutOfRange 0 0).
Proof.
  refine (proj2 (getDigestFromManifest_missing_layers_panics empty_layers
            (RepositoryHandle 1) "v1" _
            (snd (run empty_layers (getDigestFromManifest (RepositoryHandle 1) "v1") []))
            {[ "layers" := Slice [] ]} _ _) _).
  - vm_compute. reflexivity.
  - vm_compute. reflexivity.
  - vm_compute. reflexivity.
Defined.

(** C8. When the first layer of the decoded manifest is an object without a
    string [digest], [getDigestFromManifest] returns the decode error built
    by [fmt.Errorf] and an empty digest: no panic, and not an error of the
    registry. *)
Theorem getDigestFromManifest_digestless_layer h repo tag o t m layer rest :
  run h (getDigestFromManifest repo tag) [] = (o, t) ->
  decoded t = Some m ->
  mapIndex m "layers" = Slice (Map layer :: rest) ->
  (forall s, mapIndex layer "digest" <> Str s) ->
  o = Returned ("", Some (Errorf "failed to decode the layers digest from manifest")).
Proof.
  intros Hrun Hdec Hlayers Hdigest.
  execute_getDigestFromManifest Hrun.
  all: simplify_eq; cbn in Hdec; simplify_eq.
  all: try reflexivity.
  all: congruence.
Qed.

Lemma getDigestFromManifest_digestless_layer_witness :
  fst (run digestless_layer (getDigestFromManifest (RepositoryHandle 1) "v1") [])
  = Returned ("", Some (Errorf "failed to decode the layers digest from manifest")).
Proof.
  apply (getDigestFromManifest_digestless_layer digestless_layer
           (RepositoryHandle 1) "v1" _
           (snd (run digestless_layer (getDigestFromManifest (RepositoryHandle 1) "v1") []))
           {[ "layers" := Slice [Map {[ "size" := Float64 4613937818241073152 ]}] ]}
           {[ "size" := Float64 4613937818241073152 ]} []).
  - vm_compute. reflexivity.
  - vm_compute. reflexivity.
  - vm_compute. reflexivity.
  - intros s. vm_compute. discriminate.
Defined.

(** ** The terminal result *)

(** C3. When the backend reports [Succeeded] with a sequence of output
    resources, [DeployRecipe] returns their identifiers in the reported order
    and a nil error. *)
Theorem DeployRecipe_returns_output_resources h handler tp sub rg o t resp ids :
  run h (DeployRecipe handler tp sub rg) [] = (o, t) ->
  terminal_result t = Some resp ->
  Properties resp =
    Some {| ProvisioningState := ProvisioningStateSucceeded;
            OutputResources := Some ((fun s => {| ID := Some s |}) <$> ids) |} ->
  exists r, o = Returned (r, None) /\ elems r = ids.
Proof.
  intros Hrun Hres Hprops.
  execute_DeployRecipe Hrun tp.
  all: simplify_eq; cbn in Hres; simplify_eq.
  all: repeat match goal with
         | H : Properties _ = Some _ |- _ => rewrite H in *; clear H
         end.
  all: simplify_eq; cbn in *; simplify_eq.
  all: match goal with
       | H : appendIDs _ _ = _ |- _ =>
           destruct (appendIDs_present ids None) as (res & Hr & He);
           rewrite Hr in H; first [discriminate H | injection H as <-]
       end.
  eexists; split; [reflexivity | exact He].
Qed.

Lemma DeployRecipe_returns_output_resources_witness :
  exists r,
    fst (run succeeding (DeployRecipe recipeHandler reference "s1" "rg1") [])
    = Returned (r, None)
    /\ elems r = [bus1; queue1].
Proof.
  apply (DeployRecipe_returns_output_resources succeeding recipeHandler reference
           "s1" "rg1" _
           (snd (run succeeding (DeployRecipe recipeHandler reference "s1" "rg1") []))
           (fst (terminal "Succeeded" (Some [ {| ID := Some bus1 |}; {| ID := Some queue1 |} ])))
           [bus1; queue1]).
  - vm_compute. reflexivity.
  - vm_compute. reflexivity.
  - reflexivity.
Defined.

(** C4. When the backend reports a provisioning state other than
    [Succeeded], [DeployRecipe] returns a nil list and the error
    ["failed to deploy recipe - " ++ name], where [name] is the generated
    deployment name, ["recipe"] followed by the clock reading, under which
    the deployment was submitted. *)
Theorem DeployRecipe_deployment_failed h handler tp sub rg o t resp props :
  run h (DeployRecipe handler tp sub rg) [] = (o, t) ->
  terminal_result t = Some resp ->
  Properties resp = Some props ->
  ProvisioningState props <> ProvisioningStateSucceeded ->
  exists now : Z,
    head (omap clock_reading t) = Some now
    /\ submitted_name t = Some (deplmtPrefix ++ strconv.FormatInt now)
    /\ o = Returned (None, Some (Errorf ("failed to deploy recipe - "
                                          ++ deplmtPrefix ++ strconv.FormatInt now))).
Proof.
  intros Hrun Hres Hprops Hstate.
  apply not_succeeded in Hstate.
  execute_DeployRecipe Hrun tp.
  all: simplify_eq; cbn in Hres; simplify_eq.
  all: try congruence.
  all: eexists; repeat split; reflexivity.
Qed.

Lemma DeployRecipe_deployment_failed_witness :
  exists now : Z,
    head (omap clock_reading
            (snd (run failing (DeployRecipe recipeHandler reference "s1" "rg1") [])))
    = Some now
    /\ submitted_name (snd (run failing (DeployRecipe recipeHandler reference "s1" "rg1") []))
       = Some (deplmtPrefix ++ strconv.FormatInt now)
    /\ fst (run failing (DeployRecipe recipeHandler reference "s1" "rg1") [])
       = Returned (None, Some (Errorf ("failed to deploy recipe - "
                                        ++ deplmtPrefix ++ strconv.FormatInt now))).
Proof.
  apply (DeployRecipe_deployment_failed failing recipeHandler reference "s1" "rg1" _ _
           (fst (terminal "Failed" None))
           {| ProvisioningState := "Failed"; OutputResources := None |}).
  - vm_compute. reflexivity.
  - vm_compute. reflexivity.
  - reflexivity.
  - discriminate.
Defined.

(** C10. When the backend reports [Succeeded] and the [outputResources]
    pointer is nil, [DeployRecipe] returns nothing: it panics on the nil
    dereference. *)
Theorem DeployRecipe_nil_outputs_panics h handler tp sub rg o t resp props :
  run h (DeployRecipe handler tp sub rg) [] = (o, t) ->
  terminal_result t = Some resp ->
  Properties resp = Some props ->
  ProvisioningState props = ProvisioningStateSucceeded ->
  OutputResources props = None ->
  o = Panicked NilDereference.
Proof.
  intros Hrun Hres Hprops Hstate Houtputs.
  execute_DeployRecipe Hrun tp.
  all: simplify_eq; cbn in Hres; simplify_eq.
  all: try reflexivity.
  all: match goal with
       | H : negb _ = true |- _ => apply not_succeeded in H; contradiction
       end.
Qed.

Lemma DeployRecipe_nil_outputs_panics_witness :
  fst (run without_outputs (DeployRecipe recipeHandler reference "s1" "rg1") [])
  = Panicked NilDereference.
Proof.
  apply (DeployRecipe_nil_outputs_panics without_outputs recipeHandler reference
           "s1" "rg1" _
           (snd (run without_outputs (DeployRecipe recipeHandler reference "s1" "rg1") []))
           (fst (terminal "Succeeded" None))
           {| ProvisioningState := "Succeeded"; OutputResources := None |}).
  - vm_compute. reflexivity.
  - vm_compute. reflexivity.
  - reflexivity.
  - reflexivity.
  - reflexivity.
Defined.

(** ** Failures of the collaborators *)

(** C6, as the code has it. A failure of registry-client creation, of
    manifest resolution or of the blob fetch is returned as a fresh error
    whose text is the prefix of that stage followed by the text of the cause;
    a failure of the template decode, of the submission, of the wait or of
    the result retrieval is returned as the cause itself, unwrapped.  In
    every case the list is nil and the error is not. *)
Theorem DeployRecipe_failure_report h handler tp sub rg o t st c :
  run h (DeployRecipe handler tp sub rg) [] = (o, t) ->
  first_failure t = Some (st, c) ->
  o = Returned (None, Some (stage_error st c)).
Proof.
  intros Hrun Hfail.
  exact (proj1 (first_failure_outcome h handler tp sub rg o t st c Hrun Hfail)).
Qed.

Lemma DeployRecipe_failure_report_witness :
  fst (run garbled_template (DeployRecipe recipeHandler reference "s1" "rg1") [])
  = Returned (None, Some (Foreign
      (Cause "invalid character 'o' in literal null (expecting 'u')"))).
Proof.
  apply (DeployRecipe_failure_report garbled_template recipeHandler reference
           "s1" "rg1" _
           (snd (run garbled_template (DeployRecipe recipeHandler reference "s1" "rg1") []))
           TemplateDecode
           (Cause "invalid character 'o' in literal null (expecting 'u')")).
  - vm_compute. reflexivity.
  - vm_compute. reflexivity.
Defined.

(** C6 as stated fails: a template that does not decode comes back as the
    decoder's own error, with no prefix. *)
Lemma decode_failure_is_unwrapped : ~ every_stage_wraps.
Proof.
  intros H.
  destruct (H garbled_template recipeHandler reference "s1" "rg1" _ _ TemplateDecode
              (Cause "invalid character 'o' in literal null (expecting 'u')")
              (surjective_pairing _)) as (e & He & pre & _ & Hpre).
  - vm_compute. reflexivity.
  - vm_compute in He. subst e. simplify_eq.
Qed.

(** C7. When the first failure of an execution is in the blob fetch,
    [DeployRecipe] returns a nil list and the error
    ["failed to fetch recipe template from registry "] followed by the text
    of the cause, and no deployment is submitted. *)
Theorem DeployRecipe_blob_fetch_failure h handler tp sub rg o t c :
  run h (DeployRecipe handler tp sub rg) [] = (o, t) ->
  first_failure t = Some (BlobFetch, c) ->
  o = Returned (None,
        Some (Errorf ("failed to fetch recipe template from registry " ++ text c)))
  /\ submissions t = 0.
Proof.
  intros Hrun Hfail.
  exact (first_failure_outcome h handler tp sub rg o t BlobFetch c Hrun Hfail).
Qed.

Lemma DeployRecipe_blob_fetch_failure_witness :
  fst (run broken_blob (DeployRecipe recipeHandler reference "s1" "rg1") [])
  = Returned (None,
      Some (Errorf ("failed to fetch recipe template from registry "
                    ++ "connection reset by peer")))
  /\ submissions (snd (run broken_blob (DeployRecipe recipeHandler reference "s1" "rg1") []))
     = 0.
Proof.
  apply (DeployRecipe_blob_fetch_failure broken_blob recipeHandler reference
           "s1" "rg1" _ _ (Cause "connection reset by peer")).
  - vm_compute. reflexivity.
  - vm_compute. reflexivity.
Defined.

(** ** The manifest, further cases *)

(** X1. The digest returned is the [digest] string of the first layer of the
    decoded manifest; further layers and further keys play no part. *)
Theorem getDigestFromManifest_first_layer_digest h repo tag o t m layer rest d :
  run h (getDigestFromManifest repo tag) [] = (o, t) ->
  decoded t = Some m ->
  mapIndex m "layers" = Slice (Map layer :: rest) ->
  mapIndex layer "digest" = Str d ->
  o = Returned (d, None).
Proof.
  intros Hrun Hdec Hlayers Hdigest.
  execute_getDigestFromManifest Hrun.
  all: simplify_eq; cbn in Hdec; simplify_eq.
  all: congruence.
Qed.

Lemma getDigestFromManifest_first_layer_digest_witness :
  fst (run succeeding (getDigestFromManifest (RepositoryHandle 1) "v1") [])
  = Returned ("sha256:abcd", None).
Proof.
  apply (getDigestFromManifest_first_layer_digest succeeding (RepositoryHandle 1) "v1" _
           (snd (run succeeding (getDigestFromManifest (RepositoryHandle 1) "v1") []))
           manifest {[ "digest" := Str "sha256:abcd" ]} []).
  - vm_compute. reflexivity.
  - vm_compute. reflexivity.
  - vm_compute. reflexivity.
  - vm_compute. reflexivity.
Defined.

(** X2. When the first element of [layers] is not an object (a string, a
    number, null, an array), the guarded type assertion fails and
    [getDigestFromManifest] returns the error "failed to decode the layers
    from manifest" with an empty digest. *)
Theorem getDigestFromManifest_first_layer_not_object h repo tag o t m v rest :
  run h (getDigestFromManifest repo tag) [] = (o, t) ->
  decoded t = Some m ->
  mapIndex m "layers" = Slice (v :: rest) ->
  (forall layer, v <> Map layer) ->
  o = Returned ("", Some (Errorf "failed to decode the layers from manifest")).
Proof.
  intros Hrun Hdec Hlayers Hobject.
  execute_getDigestFromManifest Hrun.
  all: simplify_eq; cbn in Hdec; simplify_eq.
  all: try reflexivity.
  all: congruence.
Qed.

Lemma getDigestFromManifest_first_layer_not_object_witness :
  fst (run string_layer (getDigestFromManifest (RepositoryHandle 1) "v1") [])
  = Returned ("", Some (Errorf "failed to decode the layers from manifest")).
Proof.
  apply (getDigestFromManifest_first_layer_not_object string_layer (RepositoryHandle 1) "v1" _
           (snd (run string_layer (getDigestFromManifest (RepositoryHandle 1) "v1") []))
           {[ "layers" := Slice [Str "sha256:abcd"] ]} (Str "sha256:abcd") []).
  - vm_compute. reflexivity.
  - vm_compute. reflexivity.
  - vm_compute. reflexivity.
  - intros layer. discriminate.
Defined.

(** X3. When [layers] holds anything but an array (an object, a string, a
    number, null, or nothing), the unguarded type assertion makes
    [getDigestFromManifest] panic; no error is returned. *)
Theorem getDigestFromManifest_layers_not_array h repo tag o t m :
  run h (getDigestFromManifest repo tag) [] = (o, t) ->
  decoded t = Some m ->
  (forall l, mapIndex m "layers" <> Slice l) ->
  o = Panicked (InterfaceConversion "[]interface {}").
Proof.
  intros Hrun Hdec Hlayers.
  execute_getDigestFromManifest Hrun.
  all: simplify_eq; cbn in Hdec; simplify_eq.
  all: try reflexivity.
  all: exfalso; eapply Hlayers; eassumption.
Qed.

Lemma getDigestFromManifest_layers_not_array_witness :
  fst (run layers_object (getDigestFromManifest (RepositoryHandle 1) "v1") [])
  = Panicked (InterfaceConversion "[]interface {}").
Proof.
  apply (getDigestFromManifest_layers_not_array layers_object (RepositoryHandle 1) "v1" _
           (snd (run layers_object (getDigestFromManifest (RepositoryHandle 1) "v1") []))
           {[ "layers" := Map {[ "digest" := Str "sha256:abcd" ]} ]}).
  - vm_compute. reflexivity.
  - vm_compute. reflexivity.
  - intros l. vm_compute. discriminate.
Defined.

(** X4. When a call to the registry or the decoding of the manifest fails,
    [getDigestFromManifest] returns that very error, unwrapped, with an
    empty digest; and it never returns an error together with a digest. *)
Theorem getDigestFromManifest_registry_failure h repo tag o t :
  run h (getDigestFromManifest repo tag) [] = (o, t) ->
  (forall st c, first_failure t = Some (st, c) -> o = Returned ("", Some (Foreign c)))
  /\ (forall dg e, o = Returned (dg, Some e) -> dg = "").
Proof.
  intros Hrun.
  execute_getDigestFromManifest Hrun.
  all: simplify_eq.
  all: split;
    [ intros ? ? Hfail; cbn in Hfail; simplify_eq; reflexivity
    | intros ? ? Ho; simplify_eq; reflexivity ].
Qed.

Lemma getDigestFromManifest_registry_failure_witness :
  fst (run unknown_tag (getDigestFromManifest (RepositoryHandle 1) "v9") [])
  = Returned ("", Some (Foreign (Cause "v9: not found"))).
Proof.
  apply (proj1 (getDigestFromManifest_registry_failure unknown_tag (RepositoryHandle 1) "v9" _
           (snd (run unknown_tag (getDigestFromManifest (RepositoryHandle 1) "v9") []))
           ltac:(vm_compute; reflexivity)) ManifestResolution).
  vm_compute. reflexivity.
Defined.

(** ** The blob *)

(** X5. [getRecipeBytes] never panics.  When one of its registry calls fails
    it returns nil bytes and that very error, unwrapped; otherwise it returns
    the payload read from the stream, whatever closing the stream reports. *)
Theorem getRecipeBytes_outcome h repo layerDigest o t :
  run h (getRecipeBytes repo layerDigest) [] = (o, t) ->
  match first_failure t with
  | Some (_, c) => o = Returned (None, Some (Foreign c))
  | None => exists b, payloads t = [b] /\ o = Returned (Some b, None)
  end.
Proof.
  intros Hrun.
  unfold getRecipeBytes in Hrun. execute Hrun.
  all: simplify_eq; cbn.
  all: try reflexivity.
  all: eexists; split; reflexivity.
Qed.

Lemma getRecipeBytes_outcome_witness :
  fst (run broken_blob (getRecipeBytes (RepositoryHandle 1) "sha256:abcd") [])
  = Returned (None, Some (Foreign (Cause "connection reset by peer"))).
Proof.
  exact (getRecipeBytes_outcome broken_blob (RepositoryHandle 1) "sha256:abcd" _
           (snd (run broken_blob (getRecipeBytes (RepositoryHandle 1) "sha256:abcd") []))
           ltac:(vm_compute; reflexivity)).
Defined.
(** When the loop ends normally every entry carried its identifier and the
    slice has grown by exactly those identifiers. *)
Lemma appendIDs_done (outputResources : list ResourceReference) (result r : slice string) :
  appendIDs outputResources result = Done r ->
  exists ids, ID <$> outputResources = Some <$> ids
              /\ elems r = (elems result ++ ids)%list.
Proof.
  revert result; induction outputResources as [|[[s|]] rest IH]; intros result; cbn.
  - intros [= <-]. exists []. now rewrite app_nil_r.
  - intros Hloop. destruct (IH _ Hloop) as (ids & Hids & He).
    exists (s :: ids). split; [now rewrite fmap_cons, Hids |].
    rewrite He. unfold append. cbn. now rewrite <- app_assoc.
  - discriminate.
Qed.


(** ** The whole pipeline *)

(** X6. Every stream a [Fetch] handed out is closed, once and in the order
    of opening, before [DeployRecipe] returns or panics, and nothing else is
    closed. *)
Theorem DeployRecipe_closes_streams h handler tp sub rg o t :
  run h (DeployRecipe handler tp sub rg) [] = (o, t) ->
  closed t = opened t.
Proof.
  intros Hrun.
  execute_DeployRecipe Hrun tp.
  all: simplify_eq; reflexivity.
Qed.

Lemma DeployRecipe_closes_streams_witness :
  closed (snd (run empty_layers (DeployRecipe recipeHandler reference "s1" "rg1") []))
  = opened (snd (run empty_layers (DeployRecipe recipeHandler reference "s1" "rg1") [])).
Proof.
  apply (DeployRecipe_closes_streams empty_layers recipeHandler reference "s1" "rg1"
           (fst (run empty_layers (DeployRecipe recipeHandler reference "s1" "rg1") []))).
  vm_compute. reflexivity.
Defined.

(** X7. After the first failure of a collaborator [DeployRecipe] calls
    nothing any more, except to close the stream it had opened. *)
Theorem DeployRecipe_stops_at_first_failure h handler tp sub rg o t :
  run h (DeployRecipe handler tp sub rg) [] = (o, t) ->
  Forall (fun en => is_close en = true) (after_first_failure t).
Proof.
  intros Hrun.
  execute_DeployRecipe Hrun tp.
  all: simplify_eq; cbn; repeat constructor.
Qed.

Lemma DeployRecipe_stops_at_first_failure_witness :
  Forall (fun en => is_close en = true)
    (after_first_failure
       (snd (run broken_blob (DeployRecipe recipeHandler reference "s1" "rg1") []))).
Proof.
  apply (DeployRecipe_stops_at_first_failure broken_blob recipeHandler reference "s1" "rg1"
           (fst (run broken_blob (DeployRecipe recipeHandler reference "s1" "rg1") []))).
  vm_compute. reflexivity.
Defined.

(** X8. [DeployRecipe] submits at most one deployment.  When it does, the
    client is built from the caller's subscription and the handler's
    authorizer, the resource group is the caller's, the name is ["recipe"]
    followed by the clock reading, the mode is incremental and the template
    is the document decoded last, that is, the one decoded from the blob. *)
Theorem DeployRecipe_submission h handler tp sub rg o t :
  run h (DeployRecipe handler tp sub rg) [] = (o, t) ->
  submitted_deployments t = []
  \/ exists config now recipe,
       arm handler = Some config
       /\ head (omap clock_reading t) = Some now
       /\ omap decoding t !! 1 = Some recipe
       /\ submitted_deployments t =
            [ (NewDeploymentsClient sub (Auth config), rg,
               deplmtPrefix ++ strconv.FormatInt now,
               {| DeploymentProps :=
                    Some {| Template := recipe; Mode := DeploymentModeIncremental |} |}) ].
Proof.
  intros Hrun.
  execute_DeployRecipe Hrun tp.
  all: simplify_eq.
  all: first [ left; reflexivity
             | right; do 3 eexists; repeat split; first [eassumption | reflexivity] ].
Qed.

Lemma DeployRecipe_submission_witness :
  submitted_deployments
    (snd (run succeeding (DeployRecipe recipeHandler reference "s1" "rg1") [])) = []
  \/ exists config now recipe,
       arm recipeHandler = Some config
       /\ head (omap clock_reading
                  (snd (run succeeding (DeployRecipe recipeHandler reference "s1" "rg1") [])))
          = Some now
       /\ omap decoding
            (snd (run succeeding (DeployRecipe recipeHandler reference "s1" "rg1") [])) !! 1
          = Some recipe
       /\ submitted_deployments
            (snd (run succeeding (DeployRecipe recipeHandler reference "s1" "rg1") [])) =
            [ (NewDeploymentsClient "s1" (Auth config), "rg1",
               deplmtPrefix ++ strconv.FormatInt now,
               {| DeploymentProps :=
                    Some {| Template := recipe; Mode := DeploymentModeIncremental |} |}) ].
Proof.
  apply (DeployRecipe_submission succeeding recipeHandler reference "s1" "rg1"
           (fst (run succeeding (DeployRecipe recipeHandler reference "s1" "rg1") []))).
  vm_compute. reflexivity.
Defined.

(** X9. The blob store is asked at most once, and then for the digest of
    the first layer of the decoded manifest. *)
Theorem DeployRecipe_requests_first_layer h handler tp sub rg o t :
  run h (DeployRecipe handler tp sub rg) [] = (o, t) ->
  requested_blobs t = []
  \/ exists m layer rest digest,
       decoded t = Some m
       /\ mapIndex m "layers" = Slice (Map layer :: rest)
       /\ mapIndex layer "digest" = Str digest
       /\ requested_blobs t = [digest].
Proof.
  intros Hrun.
  execute_DeployRecipe Hrun tp.
  all: simplify_eq.
  all: first [ left; reflexivity
             | right; do 4 eexists; repeat split; first [eassumption | reflexivity] ].
Qed.

Lemma DeployRecipe_requests_first_layer_witness :
  requested_blobs
    (snd (run succeeding (DeployRecipe recipeHandler reference "s1" "rg1") [])) = []
  \/ exists m layer rest digest,
       decoded (snd (run succeeding (DeployRecipe recipeHandler reference "s1" "rg1") []))
       = Some m
       /\ mapIndex m "layers" = Slice (Map layer :: rest)
       /\ mapIndex layer "digest" = Str digest
       /\ requested_blobs
            (snd (run succeeding (DeployRecipe recipeHandler reference "s1" "rg1") []))
          = [digest].
Proof.
  apply (DeployRecipe_requests_first_layer succeeding recipeHandler reference "s1" "rg1"
           (fst (run succeeding (DeployRecipe recipeHandler reference "s1" "rg1") []))).
  vm_compute. reflexivity.
Defined.

(** X10. The byte strings given to [json.Unmarshal] are exactly the payloads
    read from the registry, in the order read: every payload read in full is
    decoded and nothing else is. *)
Theorem DeployRecipe_decodes_what_it_reads h handler tp sub rg o t :
  run h (DeployRecipe handler tp sub rg) [] = (o, t) ->
  decode_inputs t = payloads t.
Proof.
  intros Hrun.
  execute_DeployRecipe Hrun tp.
  all: simplify_eq; reflexivity.
Qed.

Lemma DeployRecipe_decodes_what_it_reads_witness :
  decode_inputs (snd (run succeeding (DeployRecipe recipeHandler reference "s1" "rg1") []))
  = payloads (snd (run succeeding (DeployRecipe recipeHandler reference "s1" "rg1") [])).
Proof.
  apply (DeployRecipe_decodes_what_it_reads succeeding recipeHandler reference "s1" "rg1"
           (fst (run succeeding (DeployRecipe recipeHandler reference "s1" "rg1") []))).
  vm_compute. reflexivity.
Defined.

(** X11. [DeployRecipe] returns a nil error only when no collaborator
    failed and the backend reported [Succeeded] with an [outputResources]
    sequence whose entries all carry an identifier; the list returned then
    holds those identifiers in order. *)
Theorem DeployRecipe_success_only_if_succeeded h handler tp sub rg o t r :
  run h (DeployRecipe handler tp sub rg) [] = (o, t) ->
  o = Returned (r, None) ->
  first_failure t = None
  /\ exists resp props refs,
       terminal_result t = Some resp
       /\ Properties resp = Some props
       /\ ProvisioningState props = ProvisioningStateSucceeded
       /\ OutputResources props = Some refs
       /\ ID <$> refs = Some <$> elems r.
Proof.
  intros Hrun Ho.
  execute_DeployRecipe Hrun tp.
  all: simplify_eq.
  match goal with
  | H : appendIDs _ _ = Done _ |- _ =>
      apply appendIDs_done in H; destruct H as (ids & Hids & He); cbn in He; subst ids
  end.
  match goal with
  | H : negb _ = false |- _ => apply negb_false_iff, String.eqb_eq in H
  end.
  split; [reflexivity |].
  do 3 eexists. repeat split; first [eassumption | reflexivity].
Qed.

Lemma DeployRecipe_success_only_if_succeeded_witness :
  first_failure (snd (run succeeding (DeployRecipe recipeHandler reference "s1" "rg1") []))
  = None
  /\ exists resp props refs,
       terminal_result
         (snd (run succeeding (DeployRecipe recipeHandler reference "s1" "rg1") []))
       = Some resp
       /\ Properties resp = Some props
       /\ ProvisioningState props = ProvisioningStateSucceeded
       /\ OutputResources props = Some refs
       /\ ID <$> refs = Some <$> elems (Some [bus1; queue1]).
Proof.
  apply (DeployRecipe_success_only_if_succeeded succeeding recipeHandler reference
           "s1" "rg1"
           (fst (run succeeding (DeployRecipe recipeHandler reference "s1" "rg1") []))).
  - vm_compute. reflexivity.
  - vm_compute. reflexivity.
Defined.

(** X12. Whenever [DeployRecipe] returns an error the list it returns is
    nil: no partial list comes with an error. *)
Theorem DeployRecipe_error_has_nil_list h handler tp sub rg o t l e :
  run h (DeployRecipe handler tp sub rg) [] = (o, t) ->
  o = Returned (l, Some e) ->
  l = None.
Proof.
  intros Hrun Ho.
  execute_DeployRecipe Hrun tp.
  all: simplify_eq; reflexivity.
Qed.

Lemma DeployRecipe_error_has_nil_list_witness :
  @None (list string) = None.
Proof.
  apply (DeployRecipe_error_has_nil_list failing recipeHandler reference "s1" "rg1"
           (fst (run failing (DeployRecipe recipeHandler reference "s1" "rg1") []))
           (snd (run failing (DeployRecipe recipeHandler reference "s1" "rg1") []))
           None (Errorf "failed to deploy recipe - recipe1667194000123456789")).
  - vm_compute. reflexivity.
  - vm_compute. reflexivity.
Defined.

(** X13. A handler made by [NewRecipeHandler] from a nil configuration never
    submits a deployment and never succeeds: once the template has been
    decoded, [DeployRecipe] panics on the nil dereference. *)
Theorem DeployRecipe_nil_configuration h tp sub rg o t :
  run h (DeployRecipe (NewRecipeHandler None) tp sub rg) [] = (o, t) ->
  submitted_deployments t = []
  /\ (forall r, o <> Returned (r, None))
  /\ (first_failure t = None -> length (omap decoding t) = 2 ->
      o = Panicked NilDereference).
Proof.
  intros Hrun.
  execute_DeployRecipe Hrun tp.
  all: simplify_eq.
  all: split; [reflexivity | split]; [intros ? Ho; discriminate Ho |].
  all: intros Hfail Hlen; cbn in Hfail, Hlen; simplify_eq; reflexivity.
Qed.

Lemma DeployRecipe_nil_configuration_witness :
  fst (run succeeding (DeployRecipe (NewRecipeHandler None) reference "s1" "rg1") [])
  = Panicked NilDereference.
Proof.
  apply (DeployRecipe_nil_configuration succeeding reference "s1" "rg1" _
           (snd (run succeeding (DeployRecipe (NewRecipeHandler None) reference "s1" "rg1") []))
           ltac:(vm_compute; reflexivity)).
  - vm_compute. reflexivity.
  - vm_compute. reflexivity.
Defined.

(** X14. The panics of [DeployRecipe]: the index [1] of a reference without
    colon, before any call; the unguarded assertion or index [0] on the
    manifest's [layers], before the blob store is asked; and a nil
    dereference, which happens only after both documents were decoded. *)
Theorem DeployRecipe_panics h handler tp sub rg o t p :
  run h (DeployRecipe handler tp sub rg) [] = (o, t) ->
  o = Panicked p ->
  (p = IndexOutOfRange 1 1 /\ has_colon tp = false /\ t = [])
  \/ ((p = InterfaceConversion "[]interface {}" \/ p = IndexOutOfRange 0 0)
      /\ length (omap decoding t) = 1 /\ requested_blobs t = [])
  \/ (p = NilDereference /\ length (omap decoding t) = 2).
Proof.
  intros Hrun Ho.
  execute_DeployRecipe Hrun tp.
  all: simplify_eq.
  all: first [ left; repeat split; first [assumption | reflexivity]
             | right; left; split; [left; reflexivity | split; reflexivity]
             | right; left; split; [right; reflexivity | split; reflexivity]
             | right; right; split; reflexivity ].
Qed.

Lemma DeployRecipe_panics_witness :
  (IndexOutOfRange 0 0 = IndexOutOfRange 1 1 /\ has_colon reference = false
   /\ snd (run empty_layers (DeployRecipe recipeHandler reference "s1" "rg1") []) = [])
  \/ ((IndexOutOfRange 0 0 = InterfaceConversion "[]interface {}"
       \/ IndexOutOfRange 0 0 = IndexOutOfRange 0 0)
      /\ length (omap decoding
                   (snd (run empty_layers (DeployRecipe recipeHandler reference "s1" "rg1") [])))
         = 1
      /\ requested_blobs
           (snd (run empty_layers (DeployRecipe recipeHandler reference "s1" "rg1") [])) = [])
  \/ (IndexOutOfRange 0 0 = NilDereference
      /\ length (omap decoding
                   (snd (run empty_layers (DeployRecipe recipeHandler reference "s1" "rg1") [])))
         = 2).
Proof.
  apply (DeployRecipe_panics empty_layers recipeHandler reference "s1" "rg1"
           (fst (run empty_layers (DeployRecipe recipeHandler reference "s1" "rg1") []))).
  - vm_compute. reflexivity.
  - vm_compute. reflexivity.
Defined.

(** ** The reference and the deployment name *)

Lemma has_colon_before (s : string) : has_colon (before_colon s) = false.
Proof.
  induction s as [|c rest IH]; [reflexivity |]. cbn.
  destruct (Ascii.eqb c colon) eqn:Hc; [reflexivity |]. cbn. now rewrite Hc.
Qed.

Lemma before_colon_whole (s : string) : has_colon s = false -> before_colon s = s.
Proof.
  induction s as [|c rest IH]; [reflexivity |]. cbn.
  destruct (Ascii.eqb c colon); [discriminate |]. intros H. now rewrite IH.
Qed.

Lemma colon_after_prefix (r x : string) :
  has_colon r = false ->
  has_colon (r ++ ":" ++ x) = true
  /\ before_colon (r ++ ":" ++ x) = r
  /\ after_colon (r ++ ":" ++ x) = x.
Proof.
  induction r as [|c rest IH]; [now cbn |].
  rewrite append_cons. cbn.
  destruct (Ascii.eqb c colon); [discriminate |].
  intros H. destruct (IH H) as (H1 & H2 & H3). now rewrite H1, H2, H3.
Qed.

(** X15. For a repository and a tag that contain no colon, the reference
    [repository:tag] is split back into exactly these two parts. *)
Theorem splitTemplatePath_round_trip (repository tag : string) :
  has_colon repository = false ->
  has_colon tag = false ->
  splitTemplatePath (repository ++ ":" ++ tag) = Done (repository, tag).
Proof.
  intros Hr Ht.
  destruct (colon_after_prefix repository tag Hr) as (H1 & H2 & H3).
  rewrite splitTemplatePath_colon by exact H1.
  now rewrite H2, H3, before_colon_whole.
Qed.

Lemma splitTemplatePath_round_trip_witness :
  splitTemplatePath ("myregistry.example/recipes/rabbitmq" ++ ":" ++ "v1")
  = Done ("myregistry.example/recipes/rabbitmq", "v1").
Proof.
  apply (splitTemplatePath_round_trip "myregistry.example/recipes/rabbitmq" "v1");
    reflexivity.
Defined.

(** X16. The registry client is created for the text before the first
    colon of the reference, and the tag resolved is the text between the
    first colon and the second; neither ever contains a colon, and no client
    is created for a reference without colon. *)
Theorem DeployRecipe_registry_requests h handler tp sub rg o t :
  run h (DeployRecipe handler tp sub rg) [] = (o, t) ->
  omap client_request t = (if has_colon tp then [before_colon tp] else [])
  /\ (omap tag_request t = [] \/ omap tag_request t = [before_colon (after_colon tp)])
  /\ Forall (fun r => has_colon r = false) (omap client_request t ++ omap tag_request t).
Proof.
  intros Hrun.
  assert (Hb := has_colon_before tp).
  assert (Ha := has_colon_before (after_colon tp)).
  execute_DeployRecipe Hrun tp.
  all: simplify_eq; cbn.
  all: split; [reflexivity | split]; [first [left; reflexivity | right; reflexivity] |].
  all: repeat constructor; assumption.
Qed.

Lemma DeployRecipe_registry_requests_witness :
  omap client_request
    (snd (run succeeding (DeployRecipe recipeHandler "localhost:5000/rabbitmq:v1" "s1" "rg1") []))
  = ["localhost"]
  /\ (omap tag_request
        (snd (run succeeding
                (DeployRecipe recipeHandler "localhost:5000/rabbitmq:v1" "s1" "rg1") [])) = []
      \/ omap tag_request
           (snd (run succeeding
                   (DeployRecipe recipeHandler "localhost:5000/rabbitmq:v1" "s1" "rg1") []))
         = ["5000/rabbitmq"])
  /\ Forall (fun r => has_colon r = false)
       (omap client_request
          (snd (run succeeding
                  (DeployRecipe recipeHandler "localhost:5000/rabbitmq:v1" "s1" "rg1") []))
        ++ omap tag_request
             (snd (run succeeding
                     (DeployRecipe recipeHandler "localhost:5000/rabbitmq:v1" "s1" "rg1") []))).
Proof.
  apply (DeployRecipe_registry_requests succeeding recipeHandler
           "localhost:5000/rabbitmq:v1" "s1" "rg1"
           (fst (run succeeding
                   (DeployRecipe recipeHandler "localhost:5000/rabbitmq:v1" "s1" "rg1") []))).
  vm_compute. reflexivity.
Defined.

(** Decimal formatting tells integers apart. *)
Lemma FormatInt_inj (a b : Z) : strconv.FormatInt a = strconv.FormatInt b -> a = b.
Proof.
  assert (Hnorm : forall z, Decimal.abs (Z.to_int z) <> Decimal.Nil).
  { intros z. rewrite <- (DecimalZ.of_to z) at 1. rewrite DecimalZ.to_of.
    rewrite DecimalFacts.abs_norm. apply DecimalFacts.unorm_nonnil. }
  assert (Hisi : forall z, NilZero.int_of_string (strconv.FormatInt z) = Some (Z.to_int z)).
  { intros z. unfold strconv.FormatInt. apply NilZero.isi.
    - intros E. apply (Hnorm z). now rewrite E.
    - intros E. apply (Hnorm z). now rewrite E. }
  intros H. apply DecimalZ.to_int_inj.
  pose proof (Hisi a) as Ea. rewrite H, Hisi in Ea. now injection Ea.
Qed.

(** The name a deployment is submitted under is ["recipe"] followed by the
    clock reading of that execution. *)
Lemma submitted_name_reading h handler tp sub rg o t name :
  run h (DeployRecipe handler tp sub rg) [] = (o, t) ->
  submitted_name t = Some name ->
  exists now, head (omap clock_reading t) = Some now
              /\ name = deplmtPrefix ++ strconv.FormatInt now.
Proof.
  intros Hrun Hname.
  execute_DeployRecipe Hrun tp.
  all: simplify_eq; cbn in Hname; simplify_eq.
  all: eexists; split; reflexivity.
Qed.

(** X17. Two executions of [DeployRecipe] submit under the same deployment
    name exactly when their clock readings are equal: distinct nanosecond
    readings give distinct names, and equal readings collide. *)
Theorem deployment_names_follow_clock
    h1 h2 handler1 handler2 tp1 tp2 sub1 sub2 rg1 rg2 o1 o2 t1 t2 name1 name2 now1 now2 :
  run h1 (DeployRecipe handler1 tp1 sub1 rg1) [] = (o1, t1) ->
  run h2 (DeployRecipe handler2 tp2 sub2 rg2) [] = (o2, t2) ->
  submitted_name t1 = Some name1 ->
  submitted_name t2 = Some name2 ->
  head (omap clock_reading t1) = Some now1 ->
  head (omap clock_reading t2) = Some now2 ->
  name1 = name2 <-> now1 = now2.
Proof.
  intros Hrun1 Hrun2 Hname1 Hname2 Hnow1 Hnow2.
  destruct (submitted_name_reading _ _ _ _ _ _ _ _ Hrun1 Hname1) as (n1 & Hn1 & ->).
  destruct (submitted_name_reading _ _ _ _ _ _ _ _ Hrun2 Hname2) as (n2 & Hn2 & ->).
  rewrite Hnow1 in Hn1. rewrite Hnow2 in Hn2. simplify_eq.
  split.
  - intros H. apply FormatInt_inj. now apply (inj (String.append deplmtPrefix)) in H.
  - now intros ->.
Qed.

Lemma deployment_names_follow_clock_witness :
  deplmtPrefix ++ "1667194000123456789" = deplmtPrefix ++ "1667194000123456789"
  <-> 1667194000123456789%Z = 1667194000123456789%Z.
Proof.
  apply (deployment_names_follow_clock succeeding failing recipeHandler recipeHandler
           reference reference "s1" "s1" "rg1" "rg1"
           (fst (run succeeding (DeployRecipe recipeHandler reference "s1" "rg1") []))
           (fst (run failing (DeployRecipe recipeHandler reference "s1" "rg1") []))
           (snd (run succeeding (DeployRecipe recipeHandler reference "s1" "rg1") []))
           (snd (run failing (DeployRecipe recipeHandler reference "s1" "rg1") []))).
  - vm_compute. reflexivity.
  - vm_compute. reflexivity.
  - vm_compute. reflexivity.
  - vm_compute. reflexivity.
  - vm_compute. reflexivity.
  - vm_compute. reflexivity.
Defined.

(** ** The delete controller *)

Section delete_controller.

Import rabbitmqmessagequeues.

(** All runs of the controller, one goal per return statement. *)
Ltac run_cases H :=
  unfold Run in H;
  repeat match type of H with
         | context [match ?x with _ => _ end] =>
             lazymatch x with
             | context [match _ with _ => _ end] => fail
             | _ => destruct x eqn:?
             end
         end;
  simplify_eq.

(** X18. The controller deletes at most once, and only the resource of the
    request, after it was read with a non-empty ETag and [ValidateETag]
    accepted that ETag. *)
Theorem Run_deletes_only_after_validation w o log id :
  Run w = (o, log) ->
  DeleteCall id ∈ log ->
  exists serviceCtx etag,
    ARMRequestContextFromContext w = Some serviceCtx
    /\ id = ResourceID serviceCtx
    /\ GetResource w id = (etag, None)
    /\ etag <> ""
    /\ ValidateETag w serviceCtx etag = None
    /\ log = [GetResourceCall id; ValidateETagCall etag; DeleteCall id].
Proof.
  intros Hrun Hin.
  run_cases Hrun.
  all: repeat match goal with
         | H : _ ∈ _ |- _ => first [apply elem_of_nil in H; contradiction | apply elem_of_cons in H; destruct H as [H|H]; simplify_eq]
         end.
  all: do 2 eexists; repeat split; try eassumption; try reflexivity.
  all: intros ->; discriminate.
Qed.

Lemma Run_deletes_only_after_validation_witness :
  exists serviceCtx etag,
    ARMRequestContextFromContext (stored {[ queue := "etag-1" ]} "etag-1" queue)
    = Some serviceCtx
    /\ queue = ResourceID serviceCtx
    /\ GetResource (stored {[ queue := "etag-1" ]} "etag-1" queue) queue = (etag, None)
    /\ etag <> ""
    /\ ValidateETag (stored {[ queue := "etag-1" ]} "etag-1" queue) serviceCtx etag = None
    /\ snd (Run (stored {[ queue := "etag-1" ]} "etag-1" queue))
       = [GetResourceCall queue; ValidateETagCall etag; DeleteCall queue].
Proof.
  apply (Run_deletes_only_after_validation (stored {[ queue := "etag-1" ]} "etag-1" queue)
           (fst (Run (stored {[ queue := "etag-1" ]} "etag-1" queue)))).
  - vm_compute. reflexivity.
  - vm_compute. do 2 right. left.
Defined.

(** X19. The controller returns either a response or an error, never both
    and never neither.  An error is always the very error of the store, from
    the read or from the delete, and never one that counts as not found. *)
Theorem Run_response_or_error w resp err log :
  Run w = (Returned (resp, err), log) ->
  (resp = None <-> err <> None)
  /\ (forall e, err = Some e ->
        exists c id,
          e = Foreign c /\ IsNotFound w c = false
          /\ (last log = Some (GetResourceCall id) /\ snd (GetResource w id) = Some c
              \/ last log = Some (DeleteCall id) /\ DataStoreDelete w id = Some c)).
Proof.
  intros Hrun.
  run_cases Hrun.
  all: split; [split; [discriminate | congruence] |].
  all: intros e0 He; simplify_eq.
  all: do 2 eexists; split; [reflexivity | split; [eassumption |]].
  - left. split; [reflexivity |].
    match goal with H : GetResource _ _ = _ |- _ => now rewrite H end.
  - right. split; [reflexivity | eassumption].
Qed.

Lemma Run_response_or_error_witness :
  (@None Response = None <-> Some (Foreign (Cause "connection refused")) <> None)
  /\ (forall e, Some (Foreign (Cause "connection refused")) = Some e ->
        exists c id,
          e = Foreign c /\ IsNotFound (unreachable queue) c = false
          /\ (last [GetResourceCall queue] = Some (GetResourceCall id)
              /\ snd (GetResource (unreachable queue) id) = Some c
              \/ last [GetResourceCall queue] = Some (DeleteCall id)
                 /\ DataStoreDelete (unreachable queue) id = Some c)).
Proof.
  apply (Run_response_or_error (unreachable queue)).
  vm_compute. reflexivity.
Defined.

(** X20. When [ValidateETag] rejects the ETag of the stored resource, the
    controller answers with the precondition-failed response for the
    resource, carrying the validator's message; the error returned is nil
    and nothing is deleted. *)
Theorem Run_precondition_failed w o log serviceCtx etag c :
  Run w = (o, log) ->
  ARMRequestContextFromContext w = Some serviceCtx ->
  ValidateETagCall etag ∈ log ->
  ValidateETag w serviceCtx etag = Some c ->
  o = Returned (Some (PreconditionFailedResponse (ResourceID serviceCtx) (text c)), None)
  /\ forall id, DeleteCall id ∉ log.
Proof.
  intros Hrun Hctx Hin Hval.
  run_cases Hrun.
  all: repeat match goal with
         | H : _ ∈ _ |- _ =>
             first [ apply elem_of_nil in H; contradiction
                   | apply elem_of_cons in H; destruct H as [H|H]; simplify_eq ]
         end.
  split; [reflexivity |].
  intros id Hid.
  repeat match goal with
         | H : _ ∈ _ |- _ =>
             first [ apply elem_of_nil in H; contradiction
                   | apply elem_of_cons in H; destruct H as [H|H]; simplify_eq ]
         end.
Qed.

Lemma Run_precondition_failed_witness :
  fst (Run (stored {[ queue := "etag-2" ]} "etag-1" queue))
  = Returned (Some (PreconditionFailedResponse queue "the resource has a different etag"),
              None)
  /\ forall id, DeleteCall id ∉ snd (Run (stored {[ queue := "etag-2" ]} "etag-1" queue)).
Proof.
  apply (Run_precondition_failed (stored {[ queue := "etag-2" ]} "etag-1" queue) _ _
           {| ResourceID := queue |} "etag-2" (Cause "the resource has a different etag")).
  - vm_compute. reflexivity.
  - reflexivity.
  - vm_compute. right. left.
  - vm_compute. reflexivity.
Defined.

(** X21. Deleting what is not there is no error: when the store reports the
    resource as not found, on the read or on the delete, the controller
    answers with the no-content response and a nil error. *)
Theorem Run_not_found_is_no_content w o log id c :
  Run w = (o, log) ->
  (last log = Some (GetResourceCall id) /\ snd (GetResource w id) = Some c
   \/ last log = Some (DeleteCall id) /\ DataStoreDelete w id = Some c) ->
  IsNotFound w c = true ->
  o = Returned (Some NoContentResponse, None).
Proof.
  intros Hrun Hwhere Hnf.
  run_cases Hrun.
  all: destruct Hwhere as [[Hlast Hc] | [Hlast Hc]]; cbn in Hlast; simplify_eq.
  all: try reflexivity.
  all: repeat match goal with
         | H : GetResource _ _ = _ |- _ => rewrite H in *; clear H
         end; cbn in *; congruence.
Qed.

Lemma Run_not_found_is_no_content_witness :
  fst (Run (stored ∅ "" queue)) = Returned (Some NoContentResponse, None).
Proof.
  apply (Run_not_found_is_no_content (stored ∅ "" queue) _
           (snd (Run (stored ∅ "" queue))) queue (Cause "the resource was not found")).
  - vm_compute. reflexivity.
  - left. vm_compute. split; reflexivity.
  - vm_compute. reflexivity.
Defined.

(** X22. The controller answers OK exactly when it called [DataStore.Delete]
    and the delete succeeded, and the body of that response is nil. *)
Theorem Run_ok_iff_deleted w o log :
  Run w = (o, log) ->
  ((exists body, o = Returned (Some (OKResponse body), None))
   <-> (exists id, last log = Some (DeleteCall id) /\ DataStoreDelete w id = None))
  /\ (forall body, o = Returned (Some (OKResponse body), None) -> body = Nil).
Proof.
  intros Hrun.
  run_cases Hrun.
  all: split; [split; [intros [body Ho] | intros (id & Hlast & Hdel)] | intros body Ho].
  all: cbn in *; simplify_eq.
  - eexists. split; [reflexivity | eassumption].
  - eexists. reflexivity.
  - reflexivity.
Qed.

Lemma Run_ok_iff_deleted_witness :
  ((exists body, fst (Run (stored {[ queue := "etag-1" ]} "" queue))
                 = Returned (Some (OKResponse body), None))
   <-> (exists id, last (snd (Run (stored {[ queue := "etag-1" ]} "" queue)))
                   = Some (DeleteCall id)
                   /\ DataStoreDelete (stored {[ queue := "etag-1" ]} "" queue) id = None))
  /\ (forall body, fst (Run (stored {[ queue := "etag-1" ]} "" queue))
                   = Returned (Some (OKResponse body), None) -> body = Nil).
Proof.
  apply (Run_ok_iff_deleted (stored {[ queue := "etag-1" ]} "" queue)).
  vm_compute. reflexivity.
Defined.

End delete_controller.

(** ** The conversion of the Dapr secret store resource *)

Section conversion.

Import v20220315privatepreview.

Variable d : Declarations.

(** Every path through a conversion, one goal each. *)
Ltac conversion_cases H :=
  unfold ConvertTo, ConvertFrom, toDaprSecretStoreKindDataModel, andThen, load in H;
  repeat match type of H with
         | context [match ?x with _ => _ end] =>
             lazymatch x with
             | context [match _ with _ => _ end] => fail
             | _ => destruct x eqn:?
             end
         end;
  simplify_eq.

(** X23. [ConvertTo] panics, always with a nil dereference, exactly when the
    receiver is nil, the [Properties] field is nil or holds a nil pointer,
    [GetDaprSecretStoreProperties] hands out nil, or a resource in mode
    'values' has type, version and metadata but no kind. *)
Theorem ConvertTo_panics receiver p :
  ConvertTo d receiver = Panicked p <->
  p = NilDereference
  /\ (receiver = None
      \/ exists src,
           receiver = Some src
           /\ (Properties src = None
               \/ exists props,
                    Properties src = Some props
                    /\ (GetDaprSecretStoreProperties d props = None
                        \/ props = ValuesPtr None
                        \/ props = RecipePtr None
                        \/ exists v,
                             props = ValuesPtr (Some v)
                             /\ is_Some (ValuesType v)
                             /\ is_Some (ValuesVersion v)
                             /\ is_Some (ValuesMetadata v)
                             /\ ValuesKind v = None))).
Proof.
  split.
  - intros H. conversion_cases H.
    all: split; [reflexivity |].
    all: first [ left; reflexivity | right; eexists; split; [reflexivity |] ].
    all: first [ left; assumption | right; eexists; split; [eassumption |] ].
    all: first [ left; assumption
               | right; left; reflexivity
               | right; right; left; reflexivity
               | right; right; right; eexists; split; [reflexivity |] ].
    all: repeat split; eauto.
  - intros [-> Hwhy].
    destruct Hwhy as [-> | (src & -> & Hwhy)]; [reflexivity |].
    unfold ConvertTo, andThen, load.
    destruct Hwhy as [-> | (props & -> & Hwhy)]; [reflexivity |].
    destruct (GetDaprSecretStoreProperties d props) eqn:Hget; [| reflexivity].
    destruct Hwhy as [Hnone | [-> | [-> | (v & -> & [ty Hty] & [ver Hver] & [md Hmd] & Hkind)]]];
      [discriminate | reflexivity | reflexivity |].
    rewrite Hty, Hver, Hmd. unfold toDaprSecretStoreKindDataModel, andThen, load.
    now rewrite Hkind.
Qed.

(** X24. When [ConvertTo] returns, it returns a model or an error, never
    both and never neither; the error is the invalid-request error of the
    branch taken: a resource in mode 'values' lacking type, version or
    metadata, a resource in mode 'recipe' lacking the recipe, or properties
    of another kind. *)
Theorem ConvertTo_model_or_error receiver m e :
  ConvertTo d receiver = Returned (m, e) ->
  (m = None <-> e <> None)
  /\ (forall err, e = Some err ->
        exists src props,
          receiver = Some src /\ Properties src = Some props
          /\ match props with
             | ValuesPtr (Some v) =>
                 err = ClientErrInvalidRequest
                         "type/version/metadata are required properties for mode 'values'"
                 /\ (ValuesType v = None \/ ValuesVersion v = None \/ ValuesMetadata v = None)
             | RecipePtr (Some r) =>
                 err = ClientErrInvalidRequest
                         "recipe is a required property for mode 'recipe'"
                 /\ RecipeRecipe r = None
             | OtherProperties =>
                 err = ClientErrInvalidRequest "Invalid Mode for DaprSecretStore"
             | _ => False
             end).
Proof.
  intros H. conversion_cases H.
  all: split; [split; [discriminate | congruence] |].
  all: intros err He; simplify_eq.
  all: do 2 eexists; split; [reflexivity | split; [eassumption |]]; cbn.
  all: first [reflexivity | split; [reflexivity |]]; eauto.
Qed.

(** X25. Every model [ConvertTo] produces is in mode 'values', also when the
    resource was in mode 'recipe'; it carries the API version of the package,
    and the read-only status and component name of the resource are not
    carried over. *)
Theorem ConvertTo_mode_is_values receiver m e :
  ConvertTo d receiver = Returned (Some m, e) ->
  datamodel.Mode (datamodel.Properties m) = datamodel_DaprSecretStorePropertiesModeValues d
  /\ datamodel.UpdatedAPIVersion m = Version d
  /\ datamodel.OutputResources (datamodel.Properties m) = []
  /\ datamodel.ComponentName (datamodel.Properties m) = "".
Proof.
  intros H. conversion_cases H.
  all: repeat split.
Qed.

(** X26. [ConvertFrom] returns an error exactly when the model handed in is
    not a secret store; the error is [ErrInvalidModelConversion] and the
    resource is left as it was. *)
Theorem ConvertFrom_rejects_other_models dst src r e :
  ConvertFrom d dst src = Returned (r, e) ->
  (e <> None <-> forall p, src <> datamodel.DaprSecretStorePtr p)
  /\ (e <> None -> e = Some ErrInvalidModelConversion /\ r = dst).
Proof.
  intros H. conversion_cases H.
  all: split; [split |]; try congruence.
  all: try (intros He; exfalso; eapply He; reflexivity).
  all: try (intros _ p; discriminate).
  all: intros _; split; reflexivity.
Qed.

(** X27. When the mode of the model is neither 'values' nor 'recipe',
    [ConvertFrom] reports no error: it overwrites the identity, location and
    tags of the resource and leaves the properties the resource had. *)
Theorem ConvertFrom_unknown_mode old model :
  datamodel.Mode (datamodel.Properties model)
    <> datamodel_DaprSecretStorePropertiesModeValues d ->
  datamodel.Mode (datamodel.Properties model)
    <> datamodel_DaprSecretStorePropertiesModeRecipe d ->
  exists r,
    ConvertFrom d (Some old) (datamodel.DaprSecretStorePtr (Some model))
    = Returned (Some r, None)
    /\ Properties r = Properties old
    /\ ID r = Some (datamodel.ID model)
    /\ Name r = Some (datamodel.ResourceName model)
    /\ Type_ r = Some (datamodel.ResourceType model)
    /\ Location r = Some (datamodel.Location model)
    /\ Tags r = Some (Some <$> datamodel.Tags model).
Proof.
  intros Hv Hr.
  apply String.eqb_neq in Hv, Hr.
  unfold ConvertFrom, andThen, load. cbn. rewrite Hv, Hr.
  eexists. repeat split.
Qed.

(** X28. A resource in mode 'values' with type, version, metadata and kind
    survives [ConvertTo] followed by [ConvertFrom]: type, version and
    metadata come back as they were, nil identity fields come back as empty
    strings, nil tag values as empty strings, and the kind comes back as
    generic whatever it was. *)
Theorem values_round_trip src old v base ty ver md kind :
  Properties src = Some (ValuesPtr (Some v)) ->
  GetDaprSecretStoreProperties d (ValuesPtr (Some v)) = Some base ->
  ValuesType v = Some ty ->
  ValuesVersion v = Some ver ->
  ValuesMetadata v = Some md ->
  ValuesKind v = Some kind ->
  exists model r v',
    ConvertTo d (Some src) = Returned (Some model, None)
    /\ ConvertFrom d (Some old) (datamodel.DaprSecretStorePtr (Some model))
       = Returned (Some r, None)
    /\ Properties r = Some (ValuesPtr (Some v'))
    /\ ValuesType v' = Some ty
    /\ ValuesVersion v' = Some ver
    /\ ValuesMetadata v' = Some md
    /\ ValuesKind v' = Some (ValuesDaprSecretStorePropertiesKindGeneric d)
    /\ ValuesMode v' = Some (DaprSecretStorePropertiesModeValues d)
    /\ ValuesEnvironment v' = Some (to.String (Environment base))
    /\ ValuesApplication v' = Some (to.String (Application base))
    /\ ID r = Some (to.String (ID src))
    /\ Name r = Some (to.String (Name src))
    /\ Type_ r = Some (to.String (Type_ src))
    /\ Location r = Some (to.String (Location src))
    /\ Tags r = Some ((fun s => Some (default "" s)) <$> default ∅ (Tags src)).
Proof.
  intros Hprops Hbase Hty Hver Hmd Hkind.
  unfold ConvertTo, toDaprSecretStoreKindDataModel, andThen, load.
  rewrite Hprops, Hbase, Hty, Hver, Hmd, Hkind.
  destruct (String.eqb kind (ValuesDaprSecretStorePropertiesKindGeneric d)).
  all: do 3 eexists; split; [reflexivity |].
  all: unfold ConvertFrom, andThen, load; cbn; rewrite String.eqb_refl.
  all: split; [reflexivity |]; cbn.
  all: repeat split.
  all: first [ unfold fromDaprSecretStoreKindDataModel; now destruct (String.eqb _ _)
             | unfold to.StringMap; now rewrite <- map_fmap_compose ].
Qed.

(** X29. A resource in mode 'recipe' does not survive the round trip: its
    recipe reaches the model, but the model is in mode 'values', so
    [ConvertFrom] gives back properties of mode 'values', which have no
    recipe. *)
Theorem recipe_round_trip src old rp base recipe :
  Properties src = Some (RecipePtr (Some rp)) ->
  GetDaprSecretStoreProperties d (RecipePtr (Some rp)) = Some base ->
  RecipeRecipe rp = Some recipe ->
  exists model r v',
    ConvertTo d (Some src) = Returned (Some model, None)
    /\ datamodel.Recipe (datamodel.Properties model) = toRecipeDataModel d recipe
    /\ ConvertFrom d (Some old) (datamodel.DaprSecretStorePtr (Some model))
       = Returned (Some r, None)
    /\ Properties r = Some (ValuesPtr (Some v'))
    /\ ValuesMode v' = Some (DaprSecretStorePropertiesModeValues d).
Proof.
  intros Hprops Hbase Hrecipe.
  unfold ConvertTo, andThen, load.
  rewrite Hprops, Hbase, Hrecipe.
  do 3 eexists. split; [reflexivity |]. split; [reflexivity |].
  unfold ConvertFrom, andThen, load. cbn. rewrite String.eqb_refl.
  repeat split.
Qed.

End conversion.

Section conversion_examples.

Import v20220315privatepreview.

Lemma ConvertTo_panics_witness :
  ConvertTo declared (Some (valuesStore None)) = Panicked NilDereference.
Proof.
  apply (proj2 (ConvertTo_panics declared (Some (valuesStore None)) NilDereference)).
  split; [reflexivity |].
  right. exists (valuesStore None). split; [reflexivity |].
  right. eexists. split; [reflexivity |].
  do 3 right. eexists. split; [reflexivity |].
  repeat split; eexists; reflexivity.
Defined.

Lemma ConvertTo_model_or_error_witness :
  ConvertTo declared (Some (recipeStore None))
  = Returned (None, Some (ClientErrInvalidRequest
                            "recipe is a required property for mode 'recipe'"))
  /\ (@None datamodel.DaprSecretStore = None
      <-> Some (ClientErrInvalidRequest "recipe is a required property for mode 'recipe'")
          <> None).
Proof.
  split; [vm_compute; reflexivity |].
  apply (ConvertTo_model_or_error declared (Some (recipeStore None))).
  vm_compute. reflexivity.
Defined.

Lemma ConvertTo_mode_is_values_witness :
  exists m,
    ConvertTo declared (Some (recipeStore (Some redisRecipe))) = Returned (Some m, None)
    /\ datamodel.Mode (datamodel.Properties m) = "values".
Proof.
  eexists. split; [vm_compute; reflexivity |].
  apply (ConvertTo_mode_is_values declared (Some (recipeStore (Some redisRecipe))) _ None).
  vm_compute. reflexivity.
Defined.

Lemma ConvertFrom_rejects_other_models_witness :
  Some ErrInvalidModelConversion = Some ErrInvalidModelConversion
  /\ Some (valuesStore None) = Some (valuesStore None).
Proof.
  apply (ConvertFrom_rejects_other_models declared (Some (valuesStore None))
           datamodel.OtherModel (Some (valuesStore None)) (Some ErrInvalidModelConversion)).
  - reflexivity.
  - discriminate.
Defined.

Lemma ConvertFrom_unknown_mode_witness :
  exists r,
    ConvertFrom declared (Some (valuesStore None))
      (datamodel.DaprSecretStorePtr (Some blankModel)) = Returned (Some r, None)
    /\ Properties r = Properties (valuesStore None).
Proof.
  destruct (ConvertFrom_unknown_mode declared (valuesStore None) blankModel)
    as (r & Hr & Hp & _).
  - discriminate.
  - discriminate.
  - exists r. split; assumption.
Defined.

Lemma values_round_trip_witness :
  exists model r,
    ConvertTo declared (Some (valuesStore (Some "vault"))) = Returned (Some model, None)
    /\ ConvertFrom declared (Some emptyResource) (datamodel.DaprSecretStorePtr (Some model))
       = Returned (Some r, None)
    /\ exists v', Properties r = Some (ValuesPtr (Some v'))
                  /\ ValuesKind v' = Some "generic".
Proof.
  destruct (values_round_trip declared (valuesStore (Some "vault")) emptyResource
              _ _ "secretstores.kubernetes" "v1" {[ "vaultName" := Str "test" ]} "vault"
              eq_refl eq_refl eq_refl eq_refl eq_refl eq_refl)
    as (model & r & v' & H1 & H2 & H3 & _ & _ & _ & H4 & _).
  exists model, r. split; [exact H1 |]. split; [exact H2 |].
  exists v'. split; [exact H3 | exact H4].
Defined.

Lemma recipe_round_trip_witness :
  exists model r v',
    ConvertTo declared (Some (recipeStore (Some redisRecipe))) = Returned (Some model, None)
    /\ ConvertFrom declared (Some emptyResource) (datamodel.DaprSecretStorePtr (Some model))
       = Returned (Some r, None)
    /\ Properties r = Some (ValuesPtr (Some v')).
Proof.
  destruct (recipe_round_trip declared (recipeStore (Some redisRecipe)) emptyResource
              _ _ redisRecipe eq_refl eq_refl eq_refl)
    as (model & r & v' & H1 & _ & H2 & H3 & _).
  exists model, r, v'. split; [exact H1 |]. split; [exact H2 | exact H3].
Defined.

End conversion_examples.
